(** * DevAgent: the analysis and scoring engine of [dev_agent.py]

    A shallow embedding of the rule battery ([analyze_code]), the
    suggestion rules ([generate_suggestions]), the scoring function
    ([calculate_score]) and the per-file driver ([review_file]) of the
    Python class [DevAgent], followed by the properties stated for them.

    Conventions of the embedding:
    - a Python [str] is a [string]; its characters are the code points
      0..255, which covers every literal the program matches on;
    - a Python [float] is a primitive binary64 [float], so that the score
      arithmetic rounds as CPython's does;
    - the issue and suggestion dictionaries, whose key sets are fixed, are
      records; the severity and impact strings are enumerations;
    - the two effects of [review_file] (reading a file, which may raise,
      and printing) are explicit: the reader is a function to a sum, the
      printed lines are returned next to the result. *)

From Stdlib Require Import List Bool Arith ZArith Lia Ascii String.
From Stdlib Require Import Floats Uint63.
Import ListNotations.

Set Warnings "-inexact-float".
#[local] Open Scope string_scope.
#[local] Open Scope list_scope.

(** ** Python strings *)

Module PyStr.

(** [sub in s] *)
Fixpoint contains (sub s : string) : bool :=
  String.prefix sub s
  || match s with
     | EmptyString => false
     | String _ t => contains sub t
     end.

(** [s.endswith(suf)] *)
Fixpoint endswith (s suf : string) : bool :=
  String.eqb s suf
  || match s with
     | EmptyString => false
     | String _ t => endswith t suf
     end.

(** [s.split(sep)] for a one-character separator: never an empty list. *)
Fixpoint split (sep : ascii) (s : string) : list string :=
  match s with
  | EmptyString => [EmptyString]
  | String c t =>
      if Ascii.eqb c sep then EmptyString :: split sep t
      else match split sep t with
           | [] => [String c EmptyString]
           | l :: ls => String c l :: ls
           end
  end.

(** [c.isspace()] on the code points below 256. *)
Definition isspace (c : ascii) : bool :=
  let n := nat_of_ascii c in
  (((9 <=? n) && (n <=? 13)) || ((28 <=? n) && (n <=? 32))
   || (n =? 133) || (n =? 160))%nat.

Fixpoint lstrip (s : string) : string :=
  match s with
  | EmptyString => EmptyString
  | String c t => if isspace c then lstrip t else s
  end.

Fixpoint rstrip (s : string) : string :=
  match s with
  | EmptyString => EmptyString
  | String c t =>
      match rstrip t with
      | EmptyString => if isspace c then EmptyString else String c EmptyString
      | t' => String c t'
      end
  end.

(** [s.strip()] *)
Definition strip (s : string) : string := rstrip (lstrip s).

(** [c.lower()] on the code points below 256: A-Z and the accented
    capitals of Latin-1 (all of 192..222 but the multiplication sign). *)
Definition lower_char (c : ascii) : ascii :=
  let n := nat_of_ascii c in
  if (((65 <=? n) && (n <=? 90))
      || ((192 <=? n) && (n <=? 222) && negb (n =? 215)))%nat
  then ascii_of_nat (n + 32) else c.

(** [s.lower()] *)
Fixpoint lower (s : string) : string :=
  match s with
  | EmptyString => EmptyString
  | String c t => String (lower_char c) (lower t)
  end.

(** [s.rfind(c)] for a one-character needle: the last index, or -1. *)
Fixpoint rfind (c : ascii) (s : string) : Z :=
  match s with
  | EmptyString => (-1)%Z
  | String a t =>
      let r := rfind c t in
      if (0 <=? r)%Z then (r + 1)%Z
      else if Ascii.eqb a c then 0%Z else (-1)%Z
  end.

(** [s[i:]] for [0 <= i] *)
Fixpoint drop (i : nat) (s : string) : string :=
  match i, s with
  | O, _ => s
  | S _, EmptyString => EmptyString
  | S j, String _ t => drop j t
  end.

(** A literal written between double quotes inside the Python literal,
    as in ['"secret"']. *)
Definition quoted (s : string) : string :=
  String "034"%char (s ++ String "034"%char EmptyString).

(** [x in xs] for a list of strings *)
Definition mem (x : string) (xs : list string) : bool :=
  existsb (String.eqb x) xs.

(** [s.replace(old, new)] for one-character [old] and [new]. *)
Fixpoint replace (old new : ascii) (s : string) : string :=
  match s with
  | EmptyString => EmptyString
  | String c t =>
      String (if Ascii.eqb c old then new else c) (replace old new t)
  end.

(** [c in s] for a character [c]. *)
Fixpoint has_char (c : ascii) (s : string) : bool :=
  match s with
  | EmptyString => false
  | String a t => Ascii.eqb a c || has_char c t
  end.

(** The truth value of a string: [bool(s)]. *)
Definition truthy (s : string) : bool :=
  match s with
  | EmptyString => false
  | String _ _ => true
  end.

End PyStr.

(** ** pathlib: the part of [PurePosixPath] that [is_code_file] uses.
    A path is represented by its [str()] form. *)

Module PyPath.

(** [Path.name]: the final component. *)
Fixpoint name (p : string) : string :=
  match p with
  | EmptyString => EmptyString
  | String c t =>
      if PyStr.contains "/" p
      then name t
      else p
  end.

(** [Path.suffix]:
    [i = name.rfind('.'); name[i:] if 0 < i < len(name) - 1 else ''] *)
Definition suffix (p : string) : string :=
  let n := name p in
  let i := PyStr.rfind "." n in
  if ((0 <? i) && (i <? Z.of_nat (String.length n) - 1))%Z
  then PyStr.drop (Z.to_nat i) n
  else EmptyString.

End PyPath.

(** ** Python floats *)

Module PyFloat.

#[local] Open Scope float_scope.

(** [min(a, b)]: the first argument unless the second is smaller. *)
Definition min (a b : float) : float := if b <? a then b else a.

(** [max(a, b)]: the first argument unless the second is greater. *)
Definition max (a b : float) : float := if a <? b then b else a.

(** [float(n)] for a length [n]; lengths are below [2^63] in CPython. *)
Definition of_len (n : nat) : float :=
  PrimFloat.of_uint63 (Uint63.of_Z (Z.of_nat n)).

End PyFloat.

(** ** The data model *)

Inductive Severity := Low | Medium | High | Critical.

(** The string stored under the key ['severity'] or ['impact']. *)
Definition Severity_str (s : Severity) : string :=
  match s with
  | Low => "Low" | Medium => "Medium" | High => "High" | Critical => "Critical"
  end.

(** An issue: [{'severity', 'message', 'line', 'code'}]; [None] is Python's
    [None]. *)
Record Issue := mkIssue {
  severity : Severity;
  message : string;
  line : option nat;
  code : option string
}.

(** A suggestion: [{'title', 'description', 'code', 'impact'}]; the key
    ['code'] is the field [snippet], the name [code] being the issue's. *)
Record Suggestion := mkSuggestion {
  title : string;
  description : string;
  snippet : string;
  impact : Severity
}.

(** [CodeReview]; the timestamp is the clock reading handed to the
    constructor. *)
Record CodeReview := mkCodeReview {
  file_path : string;
  issues : list Issue;
  suggestions : list Suggestion;
  score : float;
  timestamp : Z
}.

(** An exception caught by [except Exception as e], with [str(e)]. *)
Record Exception := mkException { exc_str : string }.

(** What the patch and commit steps do to the outside, in the order they
    do it: a printed line, a file written whole, a command run. *)
Inductive Event :=
| Print (text : string)
| WriteFile (name content : string)
| Run (argv : list string).

(** ** DevAgent *)

Module DevAgent.

Definition code_extensions : list string :=
  [".rs"; ".js"; ".ts"; ".py"; ".java"; ".cpp"; ".c"; ".go"; ".php"].

Definition is_code_file (file_path : string) : bool :=
  PyStr.mem (PyStr.lower (PyPath.suffix file_path)) code_extensions.

(** [enumerate(lines, start)] *)
Fixpoint enumerate {A : Type} (xs : list A) (start : nat) : list (nat * A) :=
  match xs with
  | [] => []
  | x :: xs' => (start, x) :: enumerate xs' (S start)
  end.

Definition todo_issue (i : nat) (l : string) : Issue :=
  mkIssue Medium "TODO or FIXME comment found" (Some i) (Some (PyStr.strip l)).
Definition long_issue (i : nat) (l : string) : Issue :=
  mkIssue Low "Line too long (over 120 characters)" (Some i) (Some (PyStr.strip l)).
Definition secret_issue (i : nat) (l : string) : Issue :=
  mkIssue High "Potential hardcoded secret found" (Some i) (Some (PyStr.strip l)).
Definition unwrap_issue (i : nat) (l : string) : Issue :=
  mkIssue High "Unsafe unwrap() usage found" (Some i) (Some (PyStr.strip l)).

(** [issues.append(x)] when the guard holds. *)
Definition append_if {A : Type} (b : bool) (x : A) (xs : list A) : list A :=
  if b then xs ++ [x] else xs.

(** One iteration of the loop of [analyze_code]: the four checks, each
    appending to the issues collected so far. *)
Definition analyze_line (file_path : string) (issues : list Issue)
    (il : nat * string) : list Issue :=
  let '(i, l) := il in
  let issues :=
    append_if (PyStr.contains "TODO" l || PyStr.contains "FIXME" l)
              (todo_issue i l) issues in
  let issues :=
    append_if (120 <? String.length l)%nat (long_issue i l) issues in
  let issues :=
    append_if (PyStr.contains (PyStr.quoted "password") l
               || PyStr.contains (PyStr.quoted "secret") l)
              (secret_issue i l) issues in
  let issues :=
    append_if (PyStr.contains ".unwrap()" l && PyStr.endswith file_path ".rs")
              (unwrap_issue i l) issues in
  issues.

Definition analyze_code (content file_path : string) : list Issue :=
  let lines := PyStr.split "010" content in
  fold_left (analyze_line file_path) (enumerate lines 1) [].

Definition logging_suggestion : Suggestion :=
  mkSuggestion "Use structured logging"
    "Consider using a logging framework instead of println!"
    "use tracing::{info, warn, error};" Medium.
Definition errors_suggestion : Suggestion :=
  mkSuggestion "Handle errors properly"
    "Consider using proper error handling instead of unwrap()"
    "// Use .map_err() or ? operator instead" High.
Definition hints_suggestion : Suggestion :=
  mkSuggestion "Add type hints"
    "Consider adding type annotations for better code clarity"
    "from typing import List, Dict, Optional" Medium.

Definition generate_suggestions (content file_path : string)
    : list Suggestion :=
  let suggestions := [] in
  let suggestions :=
    append_if (PyStr.contains "println!" content
               && PyStr.endswith file_path ".rs")
              logging_suggestion suggestions in
  let suggestions :=
    append_if (PyStr.contains ".unwrap()" content
               && PyStr.endswith file_path ".rs")
              errors_suggestion suggestions in
  let suggestions :=
    append_if (PyStr.endswith file_path ".py"
               && PyStr.contains "def " content)
              hints_suggestion suggestions in
  suggestions.

#[local] Open Scope float_scope.

(** The second bonus is guarded by [str().endswith('.rs')]: [str()] is
    the empty string, and the function has no path argument. *)
Definition calculate_score (content : string) (issues : list Issue)
    : float :=
  let score := 1.0 in
  let lines := PyStr.split "010" content in
  let total_lines := List.length lines in
  if (total_lines =? 0)%nat then 1.0
  else
    let issue_penalty := PyFloat.of_len (List.length issues) * 0.1 in
    let score := score - PyFloat.min issue_penalty 0.5 in
    let score :=
      if PyStr.contains "use tracing::" content then score + 0.1
      else score in
    let score :=
      if PyStr.contains "Result<" content
         && PyStr.endswith EmptyString ".rs"
      then score + 0.1
      else score in
    PyFloat.max 0.0 (PyFloat.min 1.0 score).

#[local] Close Scope float_scope.

Section Assembler.

(** [open(file_path, 'r', encoding='utf-8').read()]: the text, or the
    exception raised by opening, reading or decoding. *)
Variable read_text : string -> Exception + string.
(** [datetime.utcnow()] at the construction of the review. *)
Variable utcnow : Z.

(** The printed lines and the returned review. *)
Definition review_file (file_path : string) : list string * CodeReview :=
  match read_text file_path with
  | inr content =>
      let issues := analyze_code content file_path in
      let suggestions := generate_suggestions content file_path in
      let score := calculate_score content issues in
      ([], mkCodeReview file_path issues suggestions score utcnow)
  | inl e =>
      ([("Error reviewing " ++ file_path ++ ": " ++ exc_str e)%string],
       mkCodeReview file_path
         [mkIssue Critical ("Error reading file: " ++ exc_str e)%string
                  None None]
         [] 0%float utcnow)
  end.

(** What [review_codebase] sees of the tree: whether the root exists,
    and the entries of [path.rglob('*')] in traversal order, each with
    the answer of [is_file()]. *)
Variable root_exists : bool.
Variable rglob : list (string * bool).

(** The reviews, in traversal order (the printed lines are left out). *)
Definition review_codebase : list CodeReview :=
  if negb root_exists then []
  else
    fold_left
      (fun reviews entry =>
         let '(file_path, is_file) := entry in
         if is_file && is_code_file file_path
         then reviews ++ [snd (review_file file_path)]
         else reviews)
      rglob [].

End Assembler.

Section Patches.

(** [open(name, 'w')] followed by [f.write(content)]: [None] when the
    file was written, the exception raised otherwise. *)
Variable write_text : string -> string -> option Exception.

Definition patch_name (file_path title : string) : string :=
  let safe_filename :=
    PyStr.replace "092" "_" (PyStr.replace "/" "_" file_path) in
  let safe_title := PyStr.replace " " "_" title in
  (safe_filename ++ "_" ++ safe_title ++ ".patch")%string.

Definition patch_content (file_path snippet : string) : string :=
  ("--- " ++ file_path ++ String "010" ("+++ " ++ file_path
   ++ String "010" ("@@ -1,1 +1,1 @@"
   ++ String "010" (snippet ++ String "010" ""))))%string.

(** The inner loop of [generate_patches] over the suggestions of one
    review: the events so far, and the exception that ended the loop if a
    write raised. *)
Fixpoint patch_suggestions (file_path : string) (ss : list Suggestion)
    : list Event * option Exception :=
  match ss with
  | [] => ([], None)
  | suggestion :: ss' =>
      if PyStr.truthy (snippet suggestion) then
        let patch_name := patch_name file_path (title suggestion) in
        let patch_content := patch_content file_path (snippet suggestion) in
        match write_text patch_name patch_content with
        | Some e => ([], Some e)
        | None =>
            let '(events, raised) := patch_suggestions file_path ss' in
            (WriteFile patch_name patch_content
               :: Print ("Generated patch: " ++ patch_name)%string :: events,
             raised)
        end
      else patch_suggestions file_path ss'
  end.

(** The outer loop over the reviews. *)
Fixpoint patch_reviews (reviews : list CodeReview)
    : list Event * option Exception :=
  match reviews with
  | [] => ([], None)
  | review :: reviews' =>
      match patch_suggestions (file_path review) (suggestions review) with
      | (events, Some e) => (events, Some e)
      | (events, None) =>
          let '(events', raised) := patch_reviews reviews' in
          (events ++ events', raised)
      end
  end.

Definition generate_patches (reviews : list CodeReview)
    : list Event * option Exception :=
  let '(events, raised) := patch_reviews reviews in
  (Print "Generating patches for suggested improvements..." :: events,
   raised).

End Patches.

Section Commit.

(** [subprocess.run(argv, capture_output=True, text=True)]: the return
    code, or the exception raised (no such program, for one). *)
Variable run : list string -> Exception + Z.

Definition git_add : list string := ["git"; "add"; "."].
Definition git_commit : list string :=
  ["git"; "commit"; "-m"; "Auto-generated code improvements from DevAgent"].

(** The events of [commit_changes]; it returns [None] on every path. *)
Definition commit_changes : list Event :=
  Print "Committing changes to git..."
  :: Run git_add
  :: match run git_add with
     | inl e => [Print ("Git operation failed: " ++ exc_str e)%string]
     | inr returncode =>
         if negb (returncode =? 0)%Z then [Print "Git add failed"]
         else
           Run git_commit
           :: match run git_commit with
              | inl e => [Print ("Git operation failed: " ++ exc_str e)%string]
              | inr returncode =>
                  if (returncode =? 0)%Z
                  then [Print "Changes committed successfully"]
                  else [Print "Git commit failed - no changes to commit"]
              end
     end.

End Commit.

(** The count of suggestions in the summary that [main] prints:
    [sum(len(r.suggestions) for r in reviews)]. *)
Definition total_suggestions (reviews : list CodeReview) : nat :=
  fold_left (fun total r => total + List.length (suggestions r)) reviews 0.

End DevAgent.

(** ** Vocabulary of the properties *)

(** The issues that one line contributes: the loop body run on no issues. *)
Definition check_line (file_path : string) (i : nat) (l : string)
    : list Issue :=
  DevAgent.analyze_line file_path [] (i, l).

(** A line on which no check of the battery fires. *)
Definition quiet (file_path l : string) : bool :=
  negb (PyStr.contains "TODO" l || PyStr.contains "FIXME" l)
  && negb (120 <? String.length l)%nat
  && negb (PyStr.contains (PyStr.quoted "password") l
           || PyStr.contains (PyStr.quoted "secret") l)
  && negb (PyStr.contains ".unwrap()" l && PyStr.endswith file_path ".rs").

(** [line] and [code] are both present or both absent. *)
Definition line_code_together (x : Issue) : Prop :=
  match line x, code x with
  | Some _, Some _ | None, None => True
  | _, _ => False
  end.

(** The number of suggestions of a list that carry a given title. *)
Definition count_title (t : string) (l : list Suggestion) : nat :=
  List.length (filter (fun s => String.eqb (title s) t) l).

(** A float in the closed interval from 0.0 to 1.0. *)
Definition in_unit_interval (x : float) : Prop :=
  (0.0 <=? x)%float = true /\ (x <=? 1.0)%float = true.

(** A line of 130 characters with a marker comment and a quoted secret. *)
Definition marked_long_secret_line : string :=
  "TODO " ++ PyStr.quoted "secret" ++ "xxxxxxxxxxxxxxxxxxxxxxxxxxxxxxxxxxxxxxxxxxxxxxxxxxxxxxxxxxxxxxxxxxxxxxxxxxxxxxxxxxxxxxxxxxxxxxxxxxxxxxxxxxxxxxxxxxxxx".

(** A Rust source with one marker comment and a fallible return type. *)
Definition rust_result_file : string :=
  "// TODO: report errors"
  ++ String "010" "fn run() -> Result<(), Error> { Ok(()) }".

(** The line number of an issue, 0 for an issue without one. *)
Definition issue_line (x : Issue) : nat :=
  match line x with
  | Some k => k
  | None => 0
  end.

(** An issue moved down by [k] lines. *)
Definition shift_line (k : nat) (x : Issue) : Issue :=
  mkIssue (severity x) (message x) (option_map (Nat.add k) (line x)) (code x).

(** An issue of the unsafe-unwrap rule, told by its message. *)
Definition is_unwrap (x : Issue) : bool :=
  String.eqb (message x) "Unsafe unwrap() usage found".

(** An issue of severity Critical. *)
Definition is_critical (x : Issue) : bool :=
  match severity x with
  | Critical => true
  | _ => false
  end.

(** The names of the files written in a sequence of events. *)
Definition written_names (events : list Event) : list string :=
  flat_map (fun ev => match ev with
                      | WriteFile name _ => [name]
                      | _ => []
                      end) events.

(** The commands run in a sequence of events. *)
Definition commands_run (events : list Event) : list (list string) :=
  flat_map (fun ev => match ev with
                      | Run argv => [argv]
                      | _ => []
                      end) events.

(** The lines printed in a sequence of events. *)
Definition printed_lines (events : list Event) : list string :=
  flat_map (fun ev => match ev with
                      | Print text => [text]
                      | _ => []
                      end) events.

(** The names of the patches of one review, were every write to succeed:
    one per suggestion with a non-empty snippet. *)
Definition planned_names (review : CodeReview) : list string :=
  map (fun s => DevAgent.patch_name (file_path review) (title s))
    (filter (fun s => PyStr.truthy (snippet s)) (suggestions review)).

(** ** Sanity checks of the embedding on concrete inputs *)

Module Examples.
Import DevAgent.

Example split_empty : PyStr.split "010" "" = [""].
Proof. reflexivity. Qed.

Example split_trailing_newline :
  PyStr.split "010" (String "a" (String "010" "")) = ["a"; ""].
Proof. reflexivity. Qed.

Example strip_both : PyStr.strip "  x y  " = "x y".
Proof. reflexivity. Qed.

Example suffix_nested : PyPath.suffix "src/a.b/main.RS" = ".RS".
Proof. reflexivity. Qed.

Example suffix_dotfile : PyPath.suffix "src/.bashrc" = "".
Proof. reflexivity. Qed.

Example suffix_trailing_dot : PyPath.suffix "a." = "".
Proof. reflexivity. Qed.

Example analyze_rs :
  analyze_code "let x = f().unwrap(); // TODO" "m.rs"
  = [todo_issue 1 "let x = f().unwrap(); // TODO";
     unwrap_issue 1 "let x = f().unwrap(); // TODO"].
Proof. reflexivity. Qed.

Example score_three_issues :
  calculate_score "x" [todo_issue 1 ""; todo_issue 2 ""; todo_issue 3 ""]
  = (1.0 - 3.0 * 0.1)%float.
Proof. vm_compute. reflexivity. Qed.

End Examples.

Module PatchExamples.
Import DevAgent.

Example patch_name_rs :
  patch_name "src/main.rs" "Use structured logging"
  = "src_main.rs_Use_structured_logging.patch".
Proof. reflexivity. Qed.

Example patch_content_rs :
  PyStr.split "010" (patch_content "src/main.rs" "use tracing::{info};")
  = ["--- src/main.rs"; "+++ src/main.rs"; "@@ -1,1 +1,1 @@";
     "use tracing::{info};"; ""].
Proof. reflexivity. Qed.

Example commit_add_fails :
  commit_changes (fun _ => inr 1%Z)
  = [Print "Committing changes to git..."; Run git_add;
     Print "Git add failed"].
Proof. reflexivity. Qed.

Example patches_first_write_fails :
  generate_patches (fun _ _ => Some (mkException "Read-only file system"))
    [mkCodeReview "a.rs" [] [logging_suggestion; errors_suggestion] 1%float 0%Z]
  = ([Print "Generating patches for suggested improvements..."],
     Some (mkException "Read-only file system")).
Proof. reflexivity. Qed.

End PatchExamples.

(** ** Facts about the string operations *)

Section StringFacts.

Lemma endswith_refl (s : string) : PyStr.endswith s s = true.
Proof.
  destruct s as [|c t]; cbn [PyStr.endswith];
    rewrite String.eqb_refl; reflexivity.
Qed.

Lemma endswith_app (q s : string) : PyStr.endswith (q ++ s) s = true.
Proof.
  induction q as [|c q IH]; cbn [PyStr.endswith String.append].
  - apply endswith_refl.
  - rewrite IH. apply orb_true_r.
Qed.

Lemma endswith_inv (s suf : string) :
  PyStr.endswith s suf = true -> exists q, s = (q ++ suf)%string.
Proof.
  induction s as [|c t IH]; cbn [PyStr.endswith]; intros H.
  - rewrite orb_false_r in H. apply String.eqb_eq in H. subst.
    exists EmptyString. reflexivity.
  - apply orb_true_iff in H. destruct H as [H|H].
    + apply String.eqb_eq in H. exists EmptyString. simpl. congruence.
    + destruct (IH H) as [q ->]. exists (String c q). reflexivity.
Qed.

Lemma app_length (s t : string) :
  String.length (s ++ t) = String.length s + String.length t.
Proof. induction s; simpl; congruence. Qed.

(** Two tails of equal length of one string are the same tail. *)
Lemma app_tail_unique (q q' s s' : string) :
  (q ++ s = q' ++ s')%string -> String.length s = String.length s' -> s = s'.
Proof.
  revert q'. induction q as [|c q IH]; intros [|c' q'] H L; simpl in H.
  - exact H.
  - apply (f_equal String.length) in H. simpl in H.
    rewrite app_length in H. lia.
  - apply (f_equal String.length) in H. simpl in H.
    rewrite app_length in H. lia.
  - injection H as _ H. exact (IH _ H L).
Qed.

Lemma lower_length (s : string) :
  String.length (PyStr.lower s) = String.length s.
Proof. induction s; simpl; congruence. Qed.

Lemma drop_tail (i : nat) (s : string) :
  exists q, s = (q ++ PyStr.drop i s)%string.
Proof.
  revert s. induction i as [|i IH]; intros s.
  - exists EmptyString. reflexivity.
  - destruct s as [|c t]; simpl.
    + exists EmptyString. reflexivity.
    + destruct (IH t) as [q Hq]. exists (String c q). simpl. congruence.
Qed.

Lemma name_tail (p : string) :
  exists q, p = (q ++ PyPath.name p)%string.
Proof.
  induction p as [|c t IH].
  - exists EmptyString. reflexivity.
  - cbn [PyPath.name]. destruct (PyStr.contains "/" (String c t)).
    + destruct IH as [q Hq]. exists (String c q). simpl. congruence.
    + exists EmptyString. reflexivity.
Qed.

Lemma app_assoc (a b c : string) :
  ((a ++ b) ++ c = a ++ (b ++ c))%string.
Proof. induction a; simpl; congruence. Qed.

(** A path ends with its suffix. *)
Lemma suffix_tail (p : string) :
  exists q, p = (q ++ PyPath.suffix p)%string.
Proof.
  unfold PyPath.suffix.
  destruct (name_tail p) as [q Hq].
  destruct (_ && _)%bool.
  - destruct (drop_tail (Z.to_nat (PyStr.rfind "." (PyPath.name p)))
                (PyPath.name p)) as [q' Hq'].
    exists (q ++ q')%string. rewrite app_assoc, <- Hq'. exact Hq.
  - exists p. clear. induction p; simpl; congruence.
Qed.

(** [split] never returns the empty list: a text has at least one line. *)
Lemma split_not_nil (sep : ascii) (s : string) : PyStr.split sep s <> [].
Proof.
  destruct s as [|c t]; simpl; [discriminate|].
  destruct (Ascii.eqb c sep); [discriminate|].
  destruct (PyStr.split sep t); discriminate.
Qed.

End StringFacts.

(** ** The rule battery: [analyze_code] as a concatenation over lines *)

Section RuleEngine.

Import DevAgent.

Variable file_path : string.

Lemma analyze_line_app (acc : list Issue) (i : nat) (l : string) :
  analyze_line file_path acc (i, l) = acc ++ check_line file_path i l.
Proof.
  unfold check_line, analyze_line, append_if.
  destruct (_ || _); destruct (Nat.ltb _ _); destruct (_ || _); destruct (_ && _);
    cbn [app]; repeat rewrite <- List.app_assoc; cbn [app];
    try rewrite List.app_nil_r; reflexivity.
Qed.

Lemma fold_analyze_line (xs : list (nat * string)) (acc : list Issue) :
  fold_left (analyze_line file_path) xs acc
  = acc ++ flat_map (fun il => check_line file_path (fst il) (snd il)) xs.
Proof.
  revert acc. induction xs as [|[i l] xs IH]; intros acc; cbn [fold_left flat_map].
  - now rewrite List.app_nil_r.
  - rewrite IH, analyze_line_app, <- List.app_assoc. reflexivity.
Qed.

Lemma analyze_code_flat_map (content : string) :
  analyze_code content file_path
  = flat_map (fun il => check_line file_path (fst il) (snd il))
      (enumerate (PyStr.split "010" content) 1).
Proof. unfold analyze_code. now rewrite fold_analyze_line. Qed.

Lemma enumerate_app {A : Type} (xs ys : list A) (k : nat) :
  enumerate (xs ++ ys) k = enumerate xs k ++ enumerate ys (k + List.length xs).
Proof.
  revert k. induction xs as [|x xs IH]; intros k; cbn [enumerate app List.length].
  - now rewrite Nat.add_0_r.
  - rewrite IH. do 3 f_equal. lia.
Qed.

Lemma in_enumerate {A : Type} (xs : list A) (k j : nat) (x : A) :
  In (j, x) (enumerate xs k)
  <-> exists i, nth_error xs i = Some x /\ j = k + i.
Proof.
  revert k. induction xs as [|y xs IH]; intros k; cbn [enumerate In].
  - split; [tauto|]. intros [[|i] [H _]]; discriminate.
  - rewrite IH. split.
    + intros [H|[i [H ->]]].
      * injection H as -> ->. exists 0. split; [reflexivity|lia].
      * exists (S i). split; [exact H|lia].
    + intros [[|i] [H ->]]; cbn [nth_error] in H.
      * left. injection H as ->. f_equal. lia.
      * right. exists i. split; [exact H|lia].
Qed.

Lemma check_line_quiet (i : nat) (l : string) :
  quiet file_path l = true -> check_line file_path i l = [].
Proof.
  unfold quiet, check_line, analyze_line, append_if. intros H.
  repeat (apply andb_true_iff in H; destruct H as [H ?]).
  repeat match goal with
         | E : negb ?b = true |- _ => apply negb_true_iff in E; rewrite E
         end.
  reflexivity.
Qed.

Lemma flat_map_quiet (xs : list string) (k : nat) :
  Forall (fun l => quiet file_path l = true) xs ->
  flat_map (fun il => check_line file_path (fst il) (snd il)) (enumerate xs k)
  = [].
Proof.
  intros H. revert k. induction H as [|l xs Hl _ IH]; intros k;
    cbn [enumerate flat_map fst snd]; [reflexivity|].
  now rewrite check_line_quiet, IH.
Qed.

(** Membership in the result, line by line. *)
Lemma in_analyze_code (content : string) (x : Issue) :
  In x (analyze_code content file_path)
  <-> exists i l, nth_error (PyStr.split "010" content) i = Some l
                  /\ In x (check_line file_path (S i) l).
Proof.
  rewrite analyze_code_flat_map, in_flat_map. split.
  - intros [[j l] [Hin Hx]]. apply in_enumerate in Hin.
    destruct Hin as [i [Hnth ->]]. exists i, l. auto.
  - intros [i [l [Hnth Hx]]]. exists (S i, l). split; [|exact Hx].
    apply in_enumerate. exists i. auto.
Qed.

(** What a line can contribute, issue by issue. *)
Lemma in_check_line (i : nat) (l : string) (x : Issue) :
  In x (check_line file_path i l) ->
  x = todo_issue i l \/ x = long_issue i l \/ x = secret_issue i l
  \/ (x = unwrap_issue i l
      /\ PyStr.contains ".unwrap()" l = true
      /\ PyStr.endswith file_path ".rs" = true).
Proof.
  unfold check_line, analyze_line, append_if.
  destruct (_ || _); destruct (Nat.ltb _ _); destruct (_ || _);
    destruct (PyStr.contains ".unwrap()" l); destruct (PyStr.endswith file_path ".rs");
    cbn [app In andb]; intuition auto.
Qed.

Lemma unwrap_in_check_line (i : nat) (l : string) :
  PyStr.contains ".unwrap()" l = true ->
  PyStr.endswith file_path ".rs" = true ->
  In (unwrap_issue i l) (check_line file_path i l).
Proof.
  intros Hu Hp. unfold check_line, analyze_line, append_if. rewrite Hu, Hp.
  cbn [andb]. apply in_or_app. right. left. reflexivity.
Qed.

(** Under a path that does not end in [.rs] no issue is an unwrap issue. *)
Lemma no_unwrap_issue_without_rs (content : string) (x : Issue) :
  PyStr.endswith file_path ".rs" = false ->
  In x (analyze_code content file_path) ->
  message x <> "Unsafe unwrap() usage found".
Proof.
  intros Hp Hx. apply in_analyze_code in Hx.
  destruct Hx as [j [l' [_ Hx]]]. apply in_check_line in Hx.
  destruct Hx as [->|[->|[->|[_ [_ Hp']]]]]; try discriminate.
  congruence.
Qed.

End RuleEngine.

(** ** The properties of the rule battery *)

Section RuleEngineProperties.

Import DevAgent.

(** C5: in a file where one line contains TODO, is 130 characters long and
    contains the quoted word secret, where that line does not trigger the
    unwrap rule and no other line triggers any rule, [analyze_code] returns
    exactly three issues, all with that line's 1-based number, in the order
    of the battery: marker comment (Medium), line length (Low), hardcoded
    secret (High). A file made of that single line is the case of no line
    before and none after. *)
Theorem C5_three_issues_in_battery_order
    (content file_path : string) (pre post : list string) (l : string)
    (Hsplit : PyStr.split "010" content = pre ++ l :: post)
    (Htodo : PyStr.contains "TODO" l = true)
    (Hlen : String.length l = 130)
    (Hsecret : PyStr.contains (PyStr.quoted "secret") l = true)
    (Hunwrap : PyStr.contains ".unwrap()" l
               && PyStr.endswith file_path ".rs" = false)
    (Hothers : Forall (fun l' => quiet file_path l' = true) (pre ++ post)) :
  let k := S (List.length pre) in
  analyze_code content file_path
  = [todo_issue k l; long_issue k l; secret_issue k l]
  /\ map severity (analyze_code content file_path) = [Medium; Low; High]
  /\ map line (analyze_code content file_path) = [Some k; Some k; Some k].
Proof.
  intros k.
  assert (E : analyze_code content file_path
              = [todo_issue k l; long_issue k l; secret_issue k l]).
  { rewrite analyze_code_flat_map, Hsplit, enumerate_app, flat_map_app.
    apply Forall_app in Hothers. destruct Hothers as [Hpre Hpost].
    cbn [enumerate flat_map fst snd].
    rewrite (flat_map_quiet _ _ _ Hpre), (flat_map_quiet _ _ _ Hpost).
    rewrite List.app_nil_r. cbn [app].
    unfold check_line, analyze_line, append_if.
    rewrite Htodo, Hlen, Hsecret, Hunwrap, orb_true_r. reflexivity. }
  rewrite E. repeat split.
Qed.

Lemma C5_three_issues_witness :
  analyze_code
    ("fn main() {}" ++ String "010" (marked_long_secret_line ++ String "010" ""))
    "src/main.rs"
  = [todo_issue 2 marked_long_secret_line;
     long_issue 2 marked_long_secret_line;
     secret_issue 2 marked_long_secret_line]
  /\ map severity
       (analyze_code
          ("fn main() {}"
           ++ String "010" (marked_long_secret_line ++ String "010" ""))
          "src/main.rs")
     = [Medium; Low; High]
  /\ map line
       (analyze_code
          ("fn main() {}"
           ++ String "010" (marked_long_secret_line ++ String "010" ""))
          "src/main.rs")
     = [Some 2; Some 2; Some 2].
Proof.
  apply (C5_three_issues_in_battery_order _ "src/main.rs"
           ["fn main() {}"] [""] marked_long_secret_line);
    try reflexivity.
  repeat constructor.
Defined.

(** C6: for every content and path, a line containing [.unwrap()] gives
    the High unsafe-unwrap issue of its line if and only if the path ends
    in [.rs]; under a path that does not, no issue of the result carries
    the unsafe-unwrap message. *)
Theorem C6_unwrap_issue_iff_rust_path
    (content file_path : string) (i : nat) (l : string)
    (Hline : nth_error (PyStr.split "010" content) i = Some l)
    (Hunwrap : PyStr.contains ".unwrap()" l = true) :
  (In (unwrap_issue (S i) l) (analyze_code content file_path)
   <-> PyStr.endswith file_path ".rs" = true)
  /\ severity (unwrap_issue (S i) l) = High
  /\ (PyStr.endswith file_path ".rs" = false ->
      forall x, In x (analyze_code content file_path) ->
                message x <> "Unsafe unwrap() usage found").
Proof.
  assert (Hnone : PyStr.endswith file_path ".rs" = false ->
                  forall x, In x (analyze_code content file_path) ->
                            message x <> "Unsafe unwrap() usage found")
    by (intros Hp x; now apply no_unwrap_issue_without_rs).
  split; [|split; [reflexivity|exact Hnone]].
  split.
  - intros Hin. destruct (PyStr.endswith file_path ".rs") eqn:Hp; [reflexivity|].
    exfalso. exact (Hnone eq_refl _ Hin eq_refl).
  - intros Hp. apply in_analyze_code. exists i, l. split; [exact Hline|].
    now apply unwrap_in_check_line.
Qed.

Lemma C6_unwrap_issue_witness :
  (In (unwrap_issue 1 "let v = f().unwrap();")
      (analyze_code "let v = f().unwrap();" "lib.py")
   <-> PyStr.endswith "lib.py" ".rs" = true)
  /\ severity (unwrap_issue 1 "let v = f().unwrap();") = High
  /\ (forall x, In x (analyze_code "let v = f().unwrap();" "lib.py") ->
                message x <> "Unsafe unwrap() usage found").
Proof.
  destruct (C6_unwrap_issue_iff_rust_path
              "let v = f().unwrap();" "lib.py" 0 "let v = f().unwrap();"
              eq_refl eq_refl) as [Hiff [Hsev Hnone]].
  split; [exact Hiff|]. split; [exact Hsev|]. exact (Hnone eq_refl).
Defined.

Lemma analyze_code_line_code (content file_path : string) :
  Forall line_code_together (analyze_code content file_path).
Proof.
  apply Forall_forall. intros x Hx. apply in_analyze_code in Hx.
  destruct Hx as [i [l [_ Hx]]]. apply in_check_line in Hx.
  destruct Hx as [->|[->|[->|[-> _]]]]; exact I.
Qed.

End RuleEngineProperties.

(** ** The properties of the suggestion rules *)

Section SuggestionEngineProperties.

Import DevAgent.

(** C7: for every content and path, the result of [generate_suggestions]
    is the fixed list (structured logging, error handling, type hints) with
    some entries left out: each entry is present or absent according to
    whether its pattern occurs at all, so each kind appears at most once,
    however often its pattern occurs, and the order is the listed one. *)
Theorem C7_suggestions_at_most_once_in_order (content file_path : string) :
  generate_suggestions content file_path
  = (if PyStr.contains "println!" content && PyStr.endswith file_path ".rs"
     then [logging_suggestion] else [])
    ++ (if PyStr.contains ".unwrap()" content && PyStr.endswith file_path ".rs"
        then [errors_suggestion] else [])
    ++ (if PyStr.endswith file_path ".py" && PyStr.contains "def " content
        then [hints_suggestion] else [])
  /\ (forall t, count_title t (generate_suggestions content file_path) <= 1)
  /\ NoDup (generate_suggestions content file_path).
Proof.
  unfold generate_suggestions, append_if.
  destruct (PyStr.contains "println!" content && _);
    destruct (PyStr.contains ".unwrap()" content && _);
    destruct (PyStr.endswith file_path ".py" && _); cbn [app];
    (split; [reflexivity|split]);
    try (repeat constructor; cbn [In]; intuition discriminate).
  all: intros t; unfold count_title; cbn [filter title logging_suggestion
         errors_suggestion hints_suggestion].
  all: repeat match goal with
         | |- context [String.eqb ?a ?b] => destruct (String.eqb_spec a b)
         end; cbn [List.length]; try lia; congruence.
Qed.

End SuggestionEngineProperties.

(** ** The properties of the per-file driver *)

Section AssemblerProperties.

Import DevAgent.

Variable read_text : string -> Exception + string.
Variable utcnow : Z.

(** C2: when reading the file raises, [review_file] returns a review whose
    issues are exactly one Critical issue with neither line nor code, whose
    suggestions are empty and whose score is 0.0; it returns, the failure
    is not passed on. *)
Theorem C2_read_failure_degraded_review
    (path : string) (e : Exception)
    (Hfail : read_text path = inl e) :
  let r := snd (review_file read_text utcnow path) in
  issues r
  = [mkIssue Critical ("Error reading file: " ++ exc_str e)%string None None]
  /\ suggestions r = []
  /\ score r = 0.0%float
  /\ file_path r = path.
Proof.
  unfold review_file. rewrite Hfail. cbn. repeat split.
Qed.

(** Every issue of a review has line and code together, on both paths. *)
Lemma review_file_line_code (file_path : string) :
  Forall line_code_together
    (issues (snd (review_file read_text utcnow file_path))).
Proof.
  unfold review_file. destruct (read_text file_path) as [e|content]; cbn [snd issues].
  - repeat constructor.
  - apply analyze_code_line_code.
Qed.

Variable root_exists : bool.
Variable rglob : list (string * bool).

(** The reviews of a tree are those of its code files, in traversal order. *)
Lemma review_codebase_map :
  review_codebase read_text utcnow root_exists rglob
  = if root_exists
    then map (fun entry => snd (review_file read_text utcnow (fst entry)))
           (filter (fun entry => snd entry && is_code_file (fst entry)) rglob)
    else [].
Proof.
  unfold review_codebase. destruct root_exists; cbn [negb]; [|reflexivity].
  match goal with
  | |- fold_left ?f _ _ = map ?g (filter ?h _) =>
      enough (G : forall acc, fold_left f rglob acc
                              = acc ++ map g (filter h rglob))
        by apply (G [])
  end.
  induction rglob as [|[p f] es IH]; intros acc; cbn [fold_left filter fst snd].
  - cbn [map]. now rewrite List.app_nil_r.
  - destruct (f && is_code_file p); rewrite IH; [|reflexivity].
    cbn [map fst]. now rewrite <- List.app_assoc.
Qed.

End AssemblerProperties.

Lemma C2_read_failure_witness :
  let r := snd (DevAgent.review_file
                  (fun _ => inl (mkException "Permission denied")) 0%Z
                  "src/secret.rs") in
  issues r
  = [mkIssue Critical "Error reading file: Permission denied" None None]
  /\ suggestions r = []
  /\ score r = 0.0%float
  /\ file_path r = "src/secret.rs".
Proof.
  apply (C2_read_failure_degraded_review
           (fun _ => inl (mkException "Permission denied")) 0%Z
           "src/secret.rs" (mkException "Permission denied")).
  reflexivity.
Defined.

(** C9: every issue the system produces has [line] and [code] both present
    or both absent: the issues of [analyze_code] for every content and
    path, and the issues of the review returned by [review_file] whether
    the read succeeds or raises. *)
Theorem C9_line_and_code_together :
  (forall content file_path,
      Forall line_code_together (DevAgent.analyze_code content file_path))
  /\ (forall read_text utcnow file_path,
         Forall line_code_together
           (issues (snd (DevAgent.review_file read_text utcnow file_path)))).
Proof.
  split.
  - intros. apply analyze_code_line_code.
  - intros. apply review_file_line_code.
Qed.

(** ** Extension gating: [is_code_file] against the [.rs] gates *)

Section ExtensionGating.

Import DevAgent.

(** A path whose suffix has three characters ends in [.rs] only when that
    suffix is [.rs] itself. *)
Lemma endswith_rs_suffix (path : string) :
  String.length (PyPath.suffix path) = 3 ->
  PyStr.endswith path ".rs" = true -> PyPath.suffix path = ".rs".
Proof.
  intros Hlen Hends.
  destruct (endswith_inv _ _ Hends) as [q Hq].
  destruct (suffix_tail path) as [q' Hq'].
  rewrite Hq in Hq' at 1. symmetry.
  exact (app_tail_unique _ _ _ _ Hq' (eq_sym Hlen)).
Qed.

(** C10: for every path whose suffix lowercases to [.rs] without being
    [.rs] (the spellings .RS, .Rs and .rS), [is_code_file] accepts the path,
    so [review_codebase] reviews it when the traversal lists it as a file;
    yet the path does not end in [.rs], no issue of [analyze_code] is the
    unsafe-unwrap issue, and [generate_suggestions] gives neither the
    structured-logging nor the error-handling suggestion, whatever the
    content. *)
Theorem C10_uppercase_rs_accepted_but_ungated
    (path : string)
    (Hlower : PyStr.lower (PyPath.suffix path) = ".rs")
    (Hspelling : PyPath.suffix path <> ".rs") :
  is_code_file path = true
  /\ (forall read_text utcnow rglob,
         In (path, true) rglob ->
         In (snd (review_file read_text utcnow path))
            (review_codebase read_text utcnow true rglob))
  /\ PyStr.endswith path ".rs" = false
  /\ (forall content x,
         In x (analyze_code content path) ->
         message x <> "Unsafe unwrap() usage found")
  /\ (forall content,
         ~ In logging_suggestion (generate_suggestions content path)
         /\ ~ In errors_suggestion (generate_suggestions content path)).
Proof.
  assert (Hcode : is_code_file path = true)
    by (unfold is_code_file; rewrite Hlower; reflexivity).
  assert (Hends : PyStr.endswith path ".rs" = false).
  { destruct (PyStr.endswith path ".rs") eqn:E; [|reflexivity].
    exfalso. apply Hspelling. apply endswith_rs_suffix; [|exact E].
    rewrite <- lower_length, Hlower. reflexivity. }
  repeat split.
  - exact Hcode.
  - intros read_text utcnow rglob Hin. rewrite review_codebase_map.
    apply (in_map (fun entry => snd (review_file read_text utcnow (fst entry)))
             _ (path, true)).
    apply filter_In. split; [exact Hin|]. cbn [fst snd]. now rewrite Hcode.
  - exact Hends.
  - intros content x. now apply no_unwrap_issue_without_rs.
  - unfold generate_suggestions, append_if. rewrite Hends, !andb_false_r.
    unfold logging_suggestion, errors_suggestion, hints_suggestion.
    destruct (_ && _); cbn [In app]; intuition discriminate.
  - unfold generate_suggestions, append_if. rewrite Hends, !andb_false_r.
    unfold logging_suggestion, errors_suggestion, hints_suggestion.
    destruct (_ && _); cbn [In app]; intuition discriminate.
Qed.

Lemma C10_uppercase_rs_witness :
  is_code_file "src/MAIN.RS" = true
  /\ (forall read_text utcnow rglob,
         In ("src/MAIN.RS", true) rglob ->
         In (snd (review_file read_text utcnow "src/MAIN.RS"))
            (review_codebase read_text utcnow true rglob))
  /\ PyStr.endswith "src/MAIN.RS" ".rs" = false
  /\ (forall content x,
         In x (analyze_code content "src/MAIN.RS") ->
         message x <> "Unsafe unwrap() usage found")
  /\ (forall content,
         ~ In logging_suggestion (generate_suggestions content "src/MAIN.RS")
         /\ ~ In errors_suggestion (generate_suggestions content "src/MAIN.RS")).
Proof.
  apply (C10_uppercase_rs_accepted_but_ungated "src/MAIN.RS");
    [reflexivity | vm_compute; discriminate].
Defined.

End ExtensionGating.

(** ** Binary64 rounding

    The score multiplies the number of issues by 0.1. What the properties
    of the score need of that product is derived here from the
    specification of the primitive floats ([SpecFloat]): the conversion of
    an integer and the product round to a normal number whose exponent and
    mantissa are bounded below. *)

#[local] Open Scope Z_scope.

Section Binary64.

Lemma digits2_pos_bounds (p : positive) :
  2 ^ (Zpos (digits2_pos p) - 1) <= Zpos p < 2 ^ Zpos (digits2_pos p).
Proof.
  induction p as [p IH|p IH|]; cbn [digits2_pos].
  - rewrite Pos2Z.inj_succ, Pos2Z.inj_xI.
    replace (Z.succ (Zpos (digits2_pos p)) - 1)
      with (Z.succ (Zpos (digits2_pos p) - 1)) by lia.
    rewrite !Z.pow_succ_r by lia.
    generalize dependent (2 ^ (Zpos (digits2_pos p) - 1)).
    generalize (2 ^ Zpos (digits2_pos p)). lia.
  - rewrite Pos2Z.inj_succ. change (Zpos p~0) with (2 * Zpos p).
    replace (Z.succ (Zpos (digits2_pos p)) - 1)
      with (Z.succ (Zpos (digits2_pos p) - 1)) by lia.
    rewrite !Z.pow_succ_r by lia.
    generalize dependent (2 ^ (Zpos (digits2_pos p) - 1)).
    generalize (2 ^ Zpos (digits2_pos p)). lia.
  - cbn. lia.
Qed.

(** The number of binary digits of a positive number between two powers. *)
Lemma digits2_pos_range (p : positive) (a b : Z) :
  0 <= a -> 2 ^ a <= Zpos p < 2 ^ b -> a < Zpos (digits2_pos p) <= b.
Proof.
  intros Ha [Hlo Hhi]. pose proof (digits2_pos_bounds p) as [Dlo Dhi].
  split.
  - apply (Z.pow_lt_mono_r_iff 2); lia.
  - destruct (Z_le_gt_dec (Zpos (digits2_pos p)) b) as [|Hgt]; [assumption|].
    exfalso. assert (2 ^ b <= 2 ^ (Zpos (digits2_pos p) - 1))
      by (apply Z.pow_le_mono_r; lia). lia.
Qed.

Lemma shr_1_m (r : shr_record) :
  0 <= shr_m r -> shr_m (shr_1 r) = shr_m r / 2.
Proof.
  destruct r as [m rb sb]. cbn [shr_m]. intros H.
  rewrite <- Z.div2_div.
  destruct m as [|[p|p|]|p]; cbn [shr_1 shr_m]; try reflexivity. lia.
Qed.

Lemma iter_shr_1_m (p : positive) (r : shr_record) :
  0 <= shr_m r ->
  shr_m (iter_pos shr_1 p r) = shr_m r / 2 ^ Zpos p.
Proof.
  revert r. induction p as [p IH|p IH|]; intros r Hr; cbn [iter_pos].
  - assert (H1 : 0 <= shr_m (shr_1 r))
      by (rewrite shr_1_m by assumption; apply Z.div_pos; lia).
    assert (H2 : 0 <= shr_m (iter_pos shr_1 p (shr_1 r)))
      by (rewrite IH by assumption; apply Z.div_pos; lia).
    rewrite (IH _ H2), (IH _ H1), shr_1_m by assumption.
    assert (0 < 2 ^ Zpos p) by (apply Z.pow_pos_nonneg; lia).
    rewrite !Z.div_div by lia. f_equal.
    rewrite Pos2Z.inj_xI.
    replace (2 * Zpos p + 1) with (Z.succ (Zpos p + Zpos p)) by lia.
    rewrite Z.pow_succ_r, Z.pow_add_r by lia. lia.
  - assert (H1 : 0 <= shr_m (iter_pos shr_1 p r))
      by (rewrite IH by assumption; apply Z.div_pos; lia).
    rewrite (IH _ H1), (IH _ Hr).
    assert (0 < 2 ^ Zpos p) by (apply Z.pow_pos_nonneg; lia).
    rewrite !Z.div_div by lia. f_equal.
    change (Zpos p~0) with (2 * Zpos p).
    replace (2 * Zpos p) with (Zpos p + Zpos p) by lia.
    rewrite Z.pow_add_r by lia. lia.
  - rewrite shr_1_m by assumption. reflexivity.
Qed.

(** Shifting a mantissa of [d >= 53] digits to 53 digits, in the range of
    the normal numbers. *)
Lemma shr_fexp_normal (m : positive) (e : Z) :
  let d := Zpos (digits2_pos m) in
  53 <= d -> -1074 <= e + d - 53 ->
  exists r,
    shr_fexp prec emax (Zpos m) e loc_Exact = (r, e + d - 53)
    /\ shr_m r = Zpos m / 2 ^ (d - 53)
    /\ (d = 53 -> loc_of_shr_record r = loc_Exact).
Proof.
  intros d Hd He.
  unfold shr_fexp, fexp, emin, prec, emax, Zdigits2. fold d.
  replace (Z.max (d + e - 53) (3 - 1024 - 53) - e) with (d - 53) by lia.
  cbn [shr_record_of_loc].
  destruct (d - 53) as [|n|n] eqn:Hn; try lia; cbn [shr].
  - eexists; split; [f_equal; lia|]. cbn [shr_m loc_of_shr_record].
    rewrite Z.div_1_r. auto.
  - eexists; split; [f_equal; lia|]. split; [|lia].
    rewrite iter_shr_1_m by (cbn; lia). reflexivity.
Qed.

Lemma round_nearest_even_bounds (m : Z) (l : location) :
  m <= round_nearest_even m l <= m + 1.
Proof.
  destruct l as [|[]]; cbn [round_nearest_even]; try lia.
  destruct (Z.even m); lia.
Qed.

(** Rounding a positive mantissa of at least 53 digits, away from the
    subnormal range and from overflow: the result is a normal number, its
    exponent is the shifted one or the next, and in the first case its
    mantissa is at least the truncated one. *)
Lemma binary_round_aux_normal (m : positive) (e : Z) :
  let d := Zpos (digits2_pos m) in
  let e1 := e + d - 53 in
  53 <= d -> -1074 <= e1 -> e1 + 1 <= 971 ->
  exists m' e',
    binary_round_aux prec emax false (Zpos m) e loc_Exact
    = S754_finite false m' e'
    /\ 2 ^ 52 <= Zpos m' < 2 ^ 53
    /\ ((e' = e1 /\ Zpos m / 2 ^ (d - 53) <= Zpos m') \/ e' = e1 + 1).
Proof.
  intros d e1 Hd Hlo Hhi. unfold binary_round_aux.
  destruct (shr_fexp_normal m e Hd Hlo) as [r [Hr [Hm _]]].
  fold d in Hr, Hm. fold e1 in Hr. rewrite Hr.
  pose proof (digits2_pos_bounds m) as [Dlo Dhi]. fold d in Dlo, Dhi.
  assert (Hp : 0 < 2 ^ (d - 53)) by (apply Z.pow_pos_nonneg; lia).
  assert (Hm1 : 2 ^ 52 <= shr_m r < 2 ^ 53).
  { rewrite Hm. split.
    - apply Z.div_le_lower_bound; [assumption|].
      rewrite <- Z.pow_add_r by lia.
      replace (d - 53 + 52) with (d - 1) by lia. assumption.
    - apply Z.div_lt_upper_bound; [assumption|].
      rewrite <- Z.pow_add_r by lia.
      replace (d - 53 + 53) with d by lia. assumption. }
  pose proof (round_nearest_even_bounds (shr_m r) (loc_of_shr_record r))
    as Hrne.
  destruct (round_nearest_even (shr_m r) (loc_of_shr_record r))
    as [|q|q] eqn:Hq; try (exfalso; change (2 ^ 52) with 4503599627370496 in Hm1; lia).
  assert (Hq2 : 52 < Zpos (digits2_pos q) <= 54).
  { apply digits2_pos_range; [lia|].
    change (2 ^ 52) with 4503599627370496 in *.
    change (2 ^ 53) with 9007199254740992 in *.
    change (2 ^ 54) with 18014398509481984. lia. }
  destruct (shr_fexp_normal q e1) as [r2 [Hr2 [Hm2 _]]]; [lia|lia|].
  rewrite Hr2.
  pose proof (digits2_pos_bounds q) as [Qlo Qhi].
  assert (Hcase : Zpos (digits2_pos q) = 53 \/ Zpos (digits2_pos q) = 54)
    by lia.
  destruct Hcase as [E|E]; rewrite E in *.
  - change (2 ^ (53 - 53)) with 1 in Hm2. rewrite Z.div_1_r in Hm2.
    rewrite Hm2.
    replace (e1 + 53 - 53 <=? emax - prec) with true
      by (symmetry; apply Z.leb_le; unfold emax, prec; lia).
    exists q, (e1 + 53 - 53). split; [reflexivity|]. split.
    + change (53 - 1) with 52 in Qlo. lia.
    + left. split; [lia|]. rewrite <- Hm. lia.
  - assert (Zpos q = 2 ^ 53).
    { change (54 - 1) with 53 in Qlo. lia. }
    rewrite H in Hm2. change (2 ^ 53 / 2 ^ (54 - 53)) with (Zpos 4503599627370496) in Hm2.
    rewrite Hm2.
    replace (e1 + 54 - 53 <=? emax - prec) with true
      by (symmetry; apply Z.leb_le; unfold emax, prec; lia).
    exists 4503599627370496%positive, (e1 + 54 - 53). split; [reflexivity|].
    split; [|right; lia].
    change (2 ^ 52) with 4503599627370496.
    change (2 ^ 53) with 9007199254740992. lia.
Qed.

Lemma iter_xO_shift (p d : positive) :
  Zpos (Pos.iter xO p d) = Zpos p * 2 ^ Zpos d.
Proof.
  induction d as [|d IH] using Pos.peano_ind.
  - cbn [Pos.iter]. change (Zpos p~0) with (2 * Zpos p). lia.
  - rewrite Pos.iter_succ, Pos2Z.inj_succ, Z.pow_succ_r by lia.
    change (Zpos (Pos.iter xO p d)~0) with (2 * Zpos (Pos.iter xO p d)).
    rewrite IH. lia.
Qed.

(** [float(k)] for an integer [k] from 1 to below [2^63]: a normal number
    whose exponent follows the number of digits of [k]. *)
Lemma binary_normalize_int (k : positive) :
  let dk := Zpos (digits2_pos k) in
  dk <= 63 ->
  exists mx ex,
    binary_normalize prec emax (Zpos k) 0 false = S754_finite false mx ex
    /\ 2 ^ 52 <= Zpos mx < 2 ^ 53
    /\ dk - 53 <= ex <= dk - 52.
Proof.
  intros dk Hdk. cbn [binary_normalize]. unfold binary_round.
  pose proof (digits2_pos_bounds k) as [Klo Khi]. fold dk in Klo, Khi.
  assert (Hfexp : fexp prec emax (dk + 0) = dk - 53)
    by (unfold fexp, emin, prec, emax; lia).
  fold dk. rewrite Hfexp. unfold shl_align.
  destruct (dk - 53 - 0) as [|n|n] eqn:Hn.
  - destruct (binary_round_aux_normal k 0) as [m' [e' [E [Hm' He']]]];
      fold dk; try lia.
    exists m', e'. repeat split; try tauto; fold dk in He'; lia.
  - destruct (binary_round_aux_normal k 0) as [m' [e' [E [Hm' He']]]];
      fold dk; try lia.
    exists m', e'. repeat split; try tauto; fold dk in He'; lia.
  - pose proof (iter_xO_shift k n) as Hz.
    assert (Hn' : Zpos n = 53 - dk) by lia.
    assert (Hd : Zpos (digits2_pos (Pos.iter xO k n)) = 53).
    { enough (52 < Zpos (digits2_pos (Pos.iter xO k n)) <= 53) by lia.
      apply digits2_pos_range; [lia|]. rewrite Hz, Hn'.
      assert (0 < 2 ^ (53 - dk)) by (apply Z.pow_pos_nonneg; lia).
      assert (G1 : 2 ^ 52 = 2 ^ (dk - 1) * 2 ^ (53 - dk))
        by (rewrite <- Z.pow_add_r by lia; f_equal; lia).
      assert (G2 : 2 ^ 53 = 2 ^ dk * 2 ^ (53 - dk))
        by (rewrite <- Z.pow_add_r by lia; f_equal; lia).
      rewrite G1, G2. split.
      - apply Z.mul_le_mono_nonneg_r; lia.
      - apply Z.mul_lt_mono_pos_r; lia. }
    destruct (binary_round_aux_normal (Pos.iter xO k n) (dk - 53))
      as [m' [e' [E [Hm' He']]]]; rewrite ?Hd; try lia.
    exists m', e'. rewrite Hd in He'. repeat split; try tauto; lia.
Qed.

(** From eight issues on, the product [float(n) * 0.1] exceeds 0.5. *)
Lemma tenth_above_half (u : int) :
  8 <= to_Z u -> (0.5 <? of_uint63 u * 0.1)%float = true.
Proof.
  intros Hu. pose proof (to_Z_bounded u) as [_ Hw].
  rewrite FloatAxioms.ltb_spec, FloatAxioms.mul_spec, FloatAxioms.of_uint63_spec.
  destruct (to_Z u) as [|k|k] eqn:Hk; try lia.
  assert (Hdk : (3 < Zpos (digits2_pos k) <= 63)%Z).
  { apply digits2_pos_range; [lia|]. change (2 ^ 3)%Z with 8%Z.
    change wB with (2 ^ 63)%Z in Hw. lia. }
  destruct (binary_normalize_int k) as [mx [ex [E [Hmx Hex]]]]; [lia|].
  rewrite E.
  replace (Prim2SF 0.1%float) with (S754_finite false 7205759403792794 (-56))
    by (vm_compute; reflexivity).
  replace (Prim2SF 0.5%float) with (S754_finite false 4503599627370496 (-53))
    by (vm_compute; reflexivity).
  unfold SF64mul, SFmul. cbn [xorb].
  change (2 ^ 52)%Z with 4503599627370496%Z in Hmx.
  change (2 ^ 53)%Z with 9007199254740992%Z in Hmx.
  set (P := (mx * 7205759403792794)%positive).
  assert (HP : Zpos P = (Zpos mx * 7205759403792794)%Z)
    by apply Pos2Z.inj_mul.
  assert (Hd : (104 < Zpos (digits2_pos P) <= 106)%Z).
  { apply digits2_pos_range; [lia|]. rewrite HP.
    change (2 ^ 104)%Z with 20282409603651670423947251286016%Z.
    change (2 ^ 106)%Z with 81129638414606681695789005144064%Z. lia. }
  destruct (binary_round_aux_normal P (ex + -56)) as [m' [e' [R [Hm' He']]]];
    try lia.
  rewrite R. unfold SFltb, SFcompare.
  change (2 ^ 52)%Z with 4503599627370496%Z in Hm'.
  destruct He' as [[He' Hq]|He'].
  - destruct (Z.compare_spec (-53) e') as [Heq|Hlt|Hgt]; try lia.
    assert (Hd105 : Zpos (digits2_pos P) = 105%Z) by lia.
    rewrite Hd105 in Hq.
    change (2 ^ (105 - 53))%Z with 4503599627370496%Z in Hq.
    assert (7205759403792794 <= Zpos P / 4503599627370496)%Z
      by (apply Z.div_le_lower_bound; lia).
    rewrite Pos.compare_cont_spec.
    replace (4503599627370496 ?= m')%positive with Lt; [reflexivity|].
    symmetry. apply Pos.compare_lt_iff. lia.
  - destruct (Z.compare_spec (-53) e') as [Heq|Hlt|Hgt]; try lia.
Qed.

End Binary64.

#[local] Close Scope Z_scope.

(** ** The scoring function *)

Section ScoringModel.

Import DevAgent.
#[local] Open Scope float_scope.

Lemma ltb_leb (x y : float) : (x <? y) = true -> (x <=? y) = true.
Proof.
  rewrite FloatAxioms.ltb_spec, FloatAxioms.leb_spec. unfold SFltb, SFleb.
  destruct (SFcompare _ _) as [[]|]; congruence.
Qed.

(** The final clamp lands in the unit interval whatever it is given, a
    NaN included. *)
Lemma clamp_in_unit_interval (s : float) :
  in_unit_interval (PyFloat.max 0.0 (PyFloat.min 1.0 s)).
Proof.
  unfold in_unit_interval, PyFloat.max, PyFloat.min.
  destruct (s <? 1.0) eqn:Hhi.
  - destruct (0.0 <? s) eqn:Hlo.
    + split; now apply ltb_leb.
    + split; reflexivity.
  - split; reflexivity.
Qed.

(** The two guards that never fire: a text always has a line, and the
    empty string does not end in [.rs]. What is left of the function: *)
Lemma calculate_score_eq (content : string) (issues : list Issue) :
  calculate_score content issues
  = let score :=
      1.0 - PyFloat.min (PyFloat.of_len (List.length issues) * 0.1) 0.5 in
    let score :=
      if PyStr.contains "use tracing::" content then score + 0.1 else score in
    PyFloat.max 0.0 (PyFloat.min 1.0 score).
Proof.
  unfold calculate_score.
  destruct (List.length (PyStr.split "010" content)) eqn:Hlines.
  - apply length_zero_iff_nil in Hlines. now apply split_not_nil in Hlines.
  - cbn [Nat.eqb].
    replace (PyStr.endswith EmptyString ".rs") with false by reflexivity.
    rewrite andb_false_r. reflexivity.
Qed.

(** C4: for every content and every issue list, the score returned by
    [calculate_score] is at least 0.0 and at most 1.0. *)
Theorem C4_score_in_unit_interval (content : string) (issues : list Issue) :
  in_unit_interval (calculate_score content issues).
Proof.
  rewrite calculate_score_eq. cbv zeta. apply clamp_in_unit_interval.
Qed.

(** C3: for the empty content, and for the content made of one empty line
    and its newline, [analyze_code] returns no issue under every path, and
    [calculate_score] on that content and those issues returns exactly
    1.0: the penalty subtracted for no issue is 0.0, and neither bonus
    marker occurs in the content. *)
Theorem C3_empty_content (file_path : string) :
  analyze_code "" file_path = []
  /\ calculate_score "" (analyze_code "" file_path) = 1.0
  /\ analyze_code (String "010" "") file_path = []
  /\ calculate_score (String "010" "") (analyze_code (String "010" "") file_path)
     = 1.0
  /\ PyFloat.min (PyFloat.of_len (List.length (@nil Issue)) * 0.1) 0.5 = 0.0
  /\ PyStr.contains "use tracing::" "" = false
  /\ PyStr.contains "Result<" "" = false
  /\ PyStr.contains "use tracing::" (String "010" "") = false
  /\ PyStr.contains "Result<" (String "010" "") = false.
Proof.
  assert (E1 : analyze_code "" file_path = []) by reflexivity.
  assert (E2 : analyze_code (String "010" "") file_path = []) by reflexivity.
  rewrite E1, E2. repeat split; vm_compute; reflexivity.
Qed.

(** The score without the tracing bonus, as a function of the number of
    issues. *)
Lemma score_floor (n : nat) :
  (0.5 <=? PyFloat.max 0.0
             (PyFloat.min 1.0
                (1.0 - PyFloat.min (PyFloat.of_len n * 0.1) 0.5))) = true.
Proof.
  unfold PyFloat.of_len. set (u := Uint63.of_Z (Z.of_nat n)).
  destruct (Z_lt_le_dec (Uint63.to_Z u) 8) as [Hsmall|Hbig].
  - pose proof (Uint63.to_Z_bounded u) as [Hnonneg _].
    rewrite <- (Uint63.of_to_Z u).
    assert (Hcases : (Uint63.to_Z u = 0 \/ Uint63.to_Z u = 1
                      \/ Uint63.to_Z u = 2 \/ Uint63.to_Z u = 3
                      \/ Uint63.to_Z u = 4 \/ Uint63.to_Z u = 5
                      \/ Uint63.to_Z u = 6 \/ Uint63.to_Z u = 7)%Z) by lia.
    repeat destruct Hcases as [Hcases|Hcases]; rewrite Hcases;
      vm_compute; reflexivity.
  - unfold PyFloat.min at 2. rewrite (tenth_above_half u Hbig).
    vm_compute. reflexivity.
Qed.

(** C8: for every content without the tracing marker (a content with no
    bonus marker is one), the score is
    [1.0 - min(0.1 * issueCount, 0.5)] clamped; with an issue list of
    length six it is exactly 0.5, the capped penalty, and with any number
    of issues it is at least 0.5. *)
Theorem C8_penalty_capped_at_half
    (content : string)
    (Hmarker : PyStr.contains "use tracing::" content = false) :
  (forall issues,
      calculate_score content issues
      = PyFloat.max 0.0
          (PyFloat.min 1.0
             (1.0 - PyFloat.min (PyFloat.of_len (List.length issues) * 0.1)
                      0.5)))
  /\ (forall i1 i2 i3 i4 i5 i6,
         calculate_score content [i1; i2; i3; i4; i5; i6] = 0.5)
  /\ (forall issues, (0.5 <=? calculate_score content issues) = true).
Proof.
  assert (E : forall issues,
             calculate_score content issues
             = PyFloat.max 0.0
                 (PyFloat.min 1.0
                    (1.0 - PyFloat.min
                             (PyFloat.of_len (List.length issues) * 0.1) 0.5)))
    by (intros issues; rewrite calculate_score_eq, Hmarker; reflexivity).
  split; [exact E|]. split.
  - intros i1 i2 i3 i4 i5 i6. rewrite E. cbn [List.length].
    vm_compute. reflexivity.
  - intros issues. rewrite E. apply score_floor.
Qed.

Lemma C8_penalty_capped_witness :
  (forall issues,
      calculate_score "fn main() {}" issues
      = PyFloat.max 0.0
          (PyFloat.min 1.0
             (1.0 - PyFloat.min (PyFloat.of_len (List.length issues) * 0.1)
                      0.5)))
  /\ (forall i1 i2 i3 i4 i5 i6,
         calculate_score "fn main() {}" [i1; i2; i3; i4; i5; i6] = 0.5)
  /\ (forall issues, (0.5 <=? calculate_score "fn main() {}" issues) = true).
Proof.
  apply (C8_penalty_capped_at_half "fn main() {}"). reflexivity.
Defined.

(** C1 (the code at a Rust file that uses [Result<]): the second bonus is
    never part of the score. For every content and issue list the score is
    the penalty, the tracing bonus and the clamp; and for the Rust file
    [rust_result_file] under the path [src/lib.rs], whose content contains
    [Result<] and which has one issue, the score is 0.9, the penalty alone,
    where the bonus would give 1.0. *)
Theorem C1_result_bonus_never_added :
  (forall content issues,
      calculate_score content issues
      = PyFloat.max 0.0
          (PyFloat.min 1.0
             (let score :=
                1.0 - PyFloat.min (PyFloat.of_len (List.length issues) * 0.1)
                        0.5 in
              if PyStr.contains "use tracing::" content
              then score + 0.1 else score)))
  /\ PyStr.contains "Result<" rust_result_file = true
  /\ PyStr.endswith "src/lib.rs" ".rs" = true
  /\ List.length (analyze_code rust_result_file "src/lib.rs") = 1%nat
  /\ calculate_score rust_result_file
       (analyze_code rust_result_file "src/lib.rs") = 1.0 - 0.1
  /\ 1.0 - 0.1 + 0.1 = 1.0
  /\ (1.0 - 0.1 <? 1.0) = true.
Proof.
  split; [intros; apply calculate_score_eq|].
  repeat split; vm_compute; reflexivity.
Qed.

End ScoringModel.

(** * Further properties

    The rest of the file states properties of the same functions beyond
    the ones above, and of the patch and commit steps. *)

Import DevAgent.

(** ** More facts about substrings and lines *)

Section SubstringFacts.

Lemma prefix_app (sub b : string) : String.prefix sub (sub ++ b) = true.
Proof.
  induction sub as [|c sub IH]; cbn [String.prefix String.append];
    [destruct b; reflexivity|].
  destruct (ascii_dec c c); [exact IH|congruence].
Qed.

Lemma prefix_inv (sub s : string) :
  String.prefix sub s = true -> exists b, s = (sub ++ b)%string.
Proof.
  revert s. induction sub as [|c sub IH]; intros s H.
  - exists s. reflexivity.
  - destruct s as [|a s]; cbn [String.prefix] in H; [discriminate|].
    destruct (ascii_dec c a) as [->|]; [|discriminate].
    destruct (IH _ H) as [b ->]. exists b. reflexivity.
Qed.

Lemma contains_intro (a sub b : string) :
  PyStr.contains sub (a ++ sub ++ b) = true.
Proof.
  induction a as [|c a IH]; cbn [String.append].
  - destruct (sub ++ b)%string eqn:E; cbn [PyStr.contains];
      rewrite <- E, prefix_app; reflexivity.
  - cbn [PyStr.contains]. rewrite IH. apply orb_true_r.
Qed.

Lemma contains_inv (sub s : string) :
  PyStr.contains sub s = true -> exists a b, s = (a ++ sub ++ b)%string.
Proof.
  induction s as [|c s IH]; cbn [PyStr.contains]; intros H.
  - rewrite orb_false_r in H. apply prefix_inv in H. destruct H as [b ->].
    exists EmptyString, b. reflexivity.
  - apply orb_true_iff in H. destruct H as [H|H].
    + apply prefix_inv in H. destruct H as [b ->].
      exists EmptyString, b. reflexivity.
    + destruct (IH H) as [a [b ->]]. exists (String c a), b. reflexivity.
Qed.

(** A substring of a substring is a substring. *)
Lemma contains_trans (sub l s : string) (a b : string) :
  s = (a ++ l ++ b)%string ->
  PyStr.contains sub l = true -> PyStr.contains sub s = true.
Proof.
  intros -> H. apply contains_inv in H. destruct H as [a' [b' ->]].
  replace (a ++ (a' ++ sub ++ b') ++ b)%string
    with ((a ++ a') ++ sub ++ (b' ++ b))%string.
  - apply contains_intro.
  - rewrite !app_assoc. reflexivity.
Qed.

(** The first line of a text is a prefix of the text. *)
Lemma split_head_prefix (sep : ascii) (s l : string) (ls : list string) :
  PyStr.split sep s = l :: ls -> exists b, s = (l ++ b)%string.
Proof.
  revert l ls. induction s as [|c s IH]; intros l ls H; cbn [PyStr.split] in H.
  - injection H as <- _. exists EmptyString. reflexivity.
  - destruct (Ascii.eqb c sep).
    + injection H as <- _. exists (String c s). reflexivity.
    + destruct (PyStr.split sep s) as [|l0 ls0] eqn:E.
      * injection H as <- _. exists s. reflexivity.
      * injection H as <- _. destruct (IH _ _ eq_refl) as [b ->].
        exists b. reflexivity.
Qed.

(** Every line of a text is a substring of the text. *)
Lemma split_in_substring (sep : ascii) (s l : string) :
  In l (PyStr.split sep s) -> exists a b, s = (a ++ l ++ b)%string.
Proof.
  revert l. induction s as [|c s IH]; intros l H; cbn [PyStr.split] in H.
  - destruct H as [<-|[]]. exists EmptyString, EmptyString. reflexivity.
  - destruct (Ascii.eqb c sep).
    + destruct H as [<-|H].
      * exists EmptyString, (String c s). reflexivity.
      * destruct (IH _ H) as [a [b ->]]. exists (String c a), b. reflexivity.
    + destruct (PyStr.split sep s) as [|l0 ls0] eqn:E.
      * now apply split_not_nil in E.
      * destruct H as [<-|H].
        -- destruct (split_head_prefix _ _ _ _ E) as [b ->].
           exists EmptyString, b. reflexivity.
        -- destruct (IH l (or_intror H)) as [a [b ->]].
           exists (String c a), b. reflexivity.
Qed.

(** A prefix of a text that has no separator lies in the first line. *)
Lemma prefix_first_line (sep : ascii) (sub s l : string) (ls : list string) :
  PyStr.has_char sep sub = false ->
  PyStr.split sep s = l :: ls ->
  String.prefix sub s = true -> String.prefix sub l = true.
Proof.
  revert s l ls. induction sub as [|a sub IH]; intros s l ls Hsep Hs Hp.
  - destruct l; reflexivity.
  - destruct s as [|c s]; cbn [String.prefix] in Hp; [discriminate|].
    destruct (ascii_dec a c) as [->|]; [|discriminate].
    cbn [PyStr.has_char] in Hsep. apply orb_false_iff in Hsep.
    destruct Hsep as [Hc Hsub]. cbn [PyStr.split] in Hs. rewrite Hc in Hs.
    destruct (PyStr.split sep s) as [|l0 ls0] eqn:E.
    + now apply split_not_nil in E.
    + injection Hs as <- _. cbn [String.prefix].
      destruct (ascii_dec c c); [|congruence].
      exact (IH _ _ _ Hsub E Hp).
Qed.

(** A substring without a separator lies within one line. *)
Lemma contains_some_line (sep : ascii) (sub s : string) :
  PyStr.has_char sep sub = false ->
  PyStr.contains sub s = true ->
  exists l, In l (PyStr.split sep s) /\ PyStr.contains sub l = true.
Proof.
  intros Hsep. induction s as [|c s IH]; intros H.
  - exists EmptyString. split; [left; reflexivity|exact H].
  - destruct (PyStr.split sep (String c s)) as [|l ls] eqn:E;
      [now apply split_not_nil in E|].
    cbn [PyStr.contains] in H. apply orb_true_iff in H. destruct H as [H|H].
    + exists l. split; [left; reflexivity|].
      pose proof (prefix_first_line _ _ _ _ _ Hsep E H) as Hl.
      destruct l; cbn [PyStr.contains]; rewrite Hl; reflexivity.
    + destruct (IH H) as [l' [Hin Hl']]. cbn [PyStr.split] in E.
      destruct (Ascii.eqb c sep).
      * injection E as <- <-. exists l'. split; [right; exact Hin|exact Hl'].
      * destruct (PyStr.split sep s) as [|l0 ls0] eqn:E0; [destruct Hin|].
        injection E as <- <-. destruct Hin as [<-|Hin].
        -- exists (String c l0). split; [left; reflexivity|].
           cbn [PyStr.contains]. rewrite Hl'. apply orb_true_r.
        -- exists l'. split; [right; exact Hin|exact Hl'].
Qed.

(** Splitting at a separator splits the lines. *)
Lemma split_app (sep : ascii) (a b : string) :
  PyStr.split sep (a ++ String sep b)
  = PyStr.split sep a ++ PyStr.split sep b.
Proof.
  induction a as [|c a IH]; cbn [String.append PyStr.split].
  - rewrite Ascii.eqb_refl. reflexivity.
  - rewrite IH. destruct (Ascii.eqb c sep); [reflexivity|].
    destruct (PyStr.split sep a) as [|l ls] eqn:E;
      [now apply split_not_nil in E|reflexivity].
Qed.

End SubstringFacts.

(** ** Further properties of the rule battery *)

Section RuleBattery.

Import DevAgent.

Variable file_path : string.

(** The issues of one line, check by check. *)
Lemma check_line_eq (i : nat) (l : string) :
  check_line file_path i l
  = (if PyStr.contains "TODO" l || PyStr.contains "FIXME" l
     then [todo_issue i l] else [])
    ++ (if (120 <? String.length l)%nat then [long_issue i l] else [])
    ++ (if PyStr.contains (PyStr.quoted "password") l
           || PyStr.contains (PyStr.quoted "secret") l
        then [secret_issue i l] else [])
    ++ (if PyStr.contains ".unwrap()" l && PyStr.endswith file_path ".rs"
        then [unwrap_issue i l] else []).
Proof.
  unfold check_line, analyze_line, append_if.
  destruct (_ || _); destruct (Nat.ltb _ _); destruct (_ || _);
    destruct (_ && _); reflexivity.
Qed.

Lemma enumerate_length {A : Type} (xs : list A) (k : nat) :
  List.length (enumerate xs k) = List.length xs.
Proof.
  revert k. induction xs as [|x xs IH]; intros k; cbn [enumerate List.length];
    [reflexivity|]. now rewrite IH.
Qed.

Lemma flat_map_length_le {A B : Type} (f : A -> list B) (k : nat)
    (xs : list A) :
  (forall x, List.length (f x) <= k) ->
  List.length (flat_map f xs) <= k * List.length xs.
Proof.
  intros Hf. induction xs as [|x xs IH]; cbn [flat_map List.length]; [lia|].
  rewrite List.length_app. specialize (Hf x). lia.
Qed.

(** X2: the battery has four checks and each fires at most once on a
    line, so a file of [n] lines has at most [4 * n] issues, and at most
    [3 * n] when its path does not end in [.rs]. *)
Theorem issue_count_bounded_by_lines (content : string) :
  List.length (analyze_code content file_path)
  <= (if PyStr.endswith file_path ".rs" then 4 else 3)
     * List.length (PyStr.split "010" content).
Proof.
  rewrite analyze_code_flat_map.
  rewrite <- (enumerate_length (PyStr.split "010" content) 1).
  apply flat_map_length_le. intros [i l]. cbn [fst snd].
  rewrite check_line_eq.
  destruct (PyStr.endswith file_path ".rs"); rewrite ?andb_false_r;
    destruct (_ || _); destruct (Nat.ltb _ _); destruct (_ || _);
    try destruct (_ && _); cbn [app List.length]; lia.
Qed.

(** X1: each rule fires on a line exactly when its pattern matches. For
    the line [l] at index [i] of the content: its marker issue is reported
    if and only if it contains TODO or FIXME; its length issue if and only
    if it has more than 120 characters (121 fires, 120 does not); its
    secret issue if and only if it contains the quoted word password or
    secret. *)
Theorem rules_fire_exactly_on_match
    (content : string) (i : nat) (l : string)
    (Hline : nth_error (PyStr.split "010" content) i = Some l) :
  (In (todo_issue (S i) l) (analyze_code content file_path)
   <-> PyStr.contains "TODO" l = true \/ PyStr.contains "FIXME" l = true)
  /\ (In (long_issue (S i) l) (analyze_code content file_path)
      <-> 120 < String.length l)
  /\ (In (secret_issue (S i) l) (analyze_code content file_path)
      <-> PyStr.contains (PyStr.quoted "password") l = true
          \/ PyStr.contains (PyStr.quoted "secret") l = true).
Proof.
  assert (Hfwd : forall x,
             In x (analyze_code content file_path) -> line x = Some (S i) ->
             In x (check_line file_path (S i) l)).
  { intros x Hin Hx. apply in_analyze_code in Hin.
    destruct Hin as [j [l' [Hj Hin]]].
    assert (E : line x = Some (S j)).
    { apply in_check_line in Hin.
      destruct Hin as [->|[->|[->|[-> _]]]]; reflexivity. }
    rewrite Hx in E. injection E as ->. congruence. }
  assert (Hbwd : forall x,
             In x (check_line file_path (S i) l) ->
             In x (analyze_code content file_path))
    by (intros x Hin; apply in_analyze_code; exists i, l; auto).
  repeat split.
  - intros Hin. apply Hfwd in Hin; [|reflexivity].
    rewrite check_line_eq in Hin. apply orb_true_iff.
    destruct (_ || _); [reflexivity|]. exfalso.
    destruct (Nat.ltb _ _); destruct (_ || _); destruct (_ && _);
      cbn [app In] in Hin; intuition discriminate.
  - intros G. apply orb_true_iff in G. apply Hbwd. rewrite check_line_eq, G.
    left. reflexivity.
  - intros Hin. apply Hfwd in Hin; [|reflexivity].
    rewrite check_line_eq in Hin. apply Nat.ltb_lt.
    destruct (Nat.ltb _ _); [reflexivity|]. exfalso.
    destruct (_ || _); destruct (_ || _); destruct (_ && _);
      cbn [app In] in Hin; intuition discriminate.
  - intros G. apply Nat.ltb_lt in G. apply Hbwd. rewrite check_line_eq, G.
    apply in_or_app. right. left. reflexivity.
  - intros Hin. apply Hfwd in Hin; [|reflexivity].
    rewrite check_line_eq in Hin. apply orb_true_iff.
    destruct (PyStr.contains (PyStr.quoted "password") l
              || PyStr.contains (PyStr.quoted "secret") l); [reflexivity|].
    exfalso.
    destruct (_ || _); destruct (Nat.ltb _ _); destruct (_ && _);
      cbn [app In] in Hin; intuition discriminate.
  - intros G. apply orb_true_iff in G. apply Hbwd. rewrite check_line_eq, G.
    apply in_or_app. right. apply in_or_app. right. left. reflexivity.
Qed.

End RuleBattery.

Lemma rules_fire_exactly_witness :
  (In (todo_issue 1 "x = 1  # FIXME") (analyze_code "x = 1  # FIXME" "a.py")
   <-> PyStr.contains "TODO" "x = 1  # FIXME" = true
       \/ PyStr.contains "FIXME" "x = 1  # FIXME" = true)
  /\ (In (long_issue 1 "x = 1  # FIXME") (analyze_code "x = 1  # FIXME" "a.py")
      <-> 120 < String.length "x = 1  # FIXME")
  /\ (In (secret_issue 1 "x = 1  # FIXME")
         (analyze_code "x = 1  # FIXME" "a.py")
      <-> PyStr.contains (PyStr.quoted "password") "x = 1  # FIXME" = true
          \/ PyStr.contains (PyStr.quoted "secret") "x = 1  # FIXME" = true).
Proof.
  apply (rules_fire_exactly_on_match "a.py" "x = 1  # FIXME" 0 "x = 1  # FIXME").
  reflexivity.
Defined.

(** ** Lines, line numbers and stripped text *)

Section IssueLines.

Lemma lstrip_nonspace (c : ascii) (t : string) :
  PyStr.isspace c = false -> PyStr.lstrip (String c t) = String c t.
Proof. intros H. cbn [PyStr.lstrip]. now rewrite H. Qed.

Lemma rstrip_nonspace (c : ascii) (t : string) :
  PyStr.isspace c = false ->
  PyStr.rstrip (String c t) = String c (PyStr.rstrip t).
Proof.
  intros H. cbn [PyStr.rstrip]. destruct (PyStr.rstrip t); [|reflexivity].
  now rewrite H.
Qed.

Lemma lstrip_head (s : string) :
  PyStr.lstrip s = EmptyString
  \/ exists c t, PyStr.lstrip s = String c t /\ PyStr.isspace c = false.
Proof.
  induction s as [|c s IH]; cbn [PyStr.lstrip]; [left; reflexivity|].
  destruct (PyStr.isspace c) eqn:E; [exact IH|].
  right. exists c, s. auto.
Qed.

Lemma rstrip_idempotent (s : string) :
  PyStr.rstrip (PyStr.rstrip s) = PyStr.rstrip s.
Proof.
  induction s as [|c s IH]; [reflexivity|]. cbn [PyStr.rstrip].
  destruct (PyStr.rstrip s) as [|c' t'] eqn:E.
  - destruct (PyStr.isspace c) eqn:Hc; [reflexivity|].
    cbn [PyStr.rstrip]. now rewrite Hc.
  - cbn [PyStr.rstrip] in *. rewrite IH. reflexivity.
Qed.

(** Stripped text has nothing left to strip. *)
Lemma strip_idempotent (s : string) :
  PyStr.strip (PyStr.strip s) = PyStr.strip s.
Proof.
  unfold PyStr.strip. destruct (lstrip_head s) as [E|[c [t [E Hc]]]]; rewrite E.
  - reflexivity.
  - rewrite (rstrip_nonspace _ _ Hc), (lstrip_nonspace _ _ Hc).
    rewrite <- (rstrip_nonspace _ _ Hc). apply rstrip_idempotent.
Qed.

(** X3: every issue of [analyze_code] points at a line of the content:
    its number is the 1-based index of a line, its code is that line
    stripped, and stripping the code again changes nothing. *)
Theorem issues_point_at_stripped_lines (content file_path : string) :
  Forall (fun x =>
            exists i l,
              nth_error (PyStr.split "010" content) i = Some l
              /\ line x = Some (S i)
              /\ 1 <= S i <= List.length (PyStr.split "010" content)
              /\ code x = Some (PyStr.strip l)
              /\ option_map PyStr.strip (code x) = code x)
    (analyze_code content file_path).
Proof.
  apply Forall_forall. intros x Hx. apply in_analyze_code in Hx.
  destruct Hx as [i [l [Hnth Hx]]]. exists i, l.
  assert (Hi : i < List.length (PyStr.split "010" content))
    by (apply nth_error_Some; congruence).
  apply in_check_line in Hx.
  destruct Hx as [->|[->|[->|[-> _]]]]; cbn [line code option_map
    todo_issue long_issue secret_issue unwrap_issue];
    rewrite strip_idempotent; repeat split; auto; lia.
Qed.

Lemma flat_map_lines_lower_bound (file_path : string) (xs : list string)
    (k : nat) :
  Forall (fun x => k <= issue_line x)
    (flat_map (fun il => check_line file_path (fst il) (snd il))
       (enumerate xs k)).
Proof.
  revert k. induction xs as [|l xs IH]; intros k;
    cbn [enumerate flat_map fst snd]; [constructor|].
  apply Forall_app. split.
  - apply Forall_forall. intros x Hx. apply in_check_line in Hx.
    destruct Hx as [->|[->|[->|[-> _]]]]; cbn; lia.
  - eapply Forall_impl; [|apply (IH (S k))]. cbn beta. intros x Hx. lia.
Qed.

(** X4: the issues come in the order of the lines: their line numbers
    never decrease along the result. *)
Theorem issues_sorted_by_line (content file_path : string) :
  forall i j x y,
    i <= j ->
    nth_error (analyze_code content file_path) i = Some x ->
    nth_error (analyze_code content file_path) j = Some y ->
    issue_line x <= issue_line y.
Proof.
  rewrite analyze_code_flat_map. generalize 1.
  induction (PyStr.split "010" content) as [|l xs IH]; intros k i j x y Hij Hi Hj;
    cbn [enumerate flat_map fst snd] in Hi, Hj.
  - destruct i; discriminate.
  - assert (Hhead : Forall (fun x => issue_line x = k)
                      (check_line file_path k l)).
    { apply Forall_forall. intros z Hz. apply in_check_line in Hz.
      destruct Hz as [->|[->|[->|[-> _]]]]; reflexivity. }
    pose proof (flat_map_lines_lower_bound file_path xs (S k)) as Htail.
    rewrite Forall_forall in Hhead, Htail.
    set (h := check_line file_path k l) in *.
    destruct (Nat.lt_ge_cases i (List.length h)) as [Hi'|Hi'];
      destruct (Nat.lt_ge_cases j (List.length h)) as [Hj'|Hj'].
    + rewrite nth_error_app1 in Hi, Hj by assumption.
      apply nth_error_In in Hi, Hj. rewrite (Hhead _ Hi), (Hhead _ Hj). lia.
    + rewrite nth_error_app1 in Hi by assumption.
      rewrite nth_error_app2 in Hj by assumption.
      apply nth_error_In in Hi, Hj. rewrite (Hhead _ Hi).
      specialize (Htail _ Hj). lia.
    + lia.
    + rewrite nth_error_app2 in Hi, Hj by assumption.
      apply (IH (S k) (i - List.length h) (j - List.length h)); auto. lia.
Qed.

Lemma issues_sorted_witness :
  issue_line (todo_issue 1 "# TODO")
  <= issue_line (long_issue 2 marked_long_secret_line).
Proof.
  apply (issues_sorted_by_line
           ("# TODO" ++ String "010" marked_long_secret_line) "a.py" 0 2
           (todo_issue 1 "# TODO") (long_issue 2 marked_long_secret_line));
    [lia | reflexivity | reflexivity].
Defined.

Lemma check_line_not_unwrap (file_path file_path' : string) (i : nat)
    (l : string) :
  PyStr.endswith file_path ".rs" = false ->
  filter (fun x => negb (is_unwrap x)) (check_line file_path' i l)
  = check_line file_path i l.
Proof.
  intros H. rewrite !check_line_eq, H, andb_false_r.
  destruct (_ || _); destruct (Nat.ltb _ _); destruct (_ || _);
    destruct (_ && _); reflexivity.
Qed.

(** X5: the path matters to [analyze_code] only through the unwrap rule:
    under a path that does not end in [.rs] the issues of a content are
    the issues of the same content under any other path, without the
    unsafe-unwrap ones, in the same order. *)
Theorem issues_differ_by_unwrap_only
    (content file_path file_path' : string)
    (Hpath : PyStr.endswith file_path ".rs" = false) :
  analyze_code content file_path
  = filter (fun x => negb (is_unwrap x)) (analyze_code content file_path').
Proof.
  rewrite !analyze_code_flat_map. generalize 1.
  induction (PyStr.split "010" content) as [|l xs IH]; intros k;
    cbn [enumerate flat_map fst snd]; [reflexivity|].
  rewrite filter_app, <- IH, (check_line_not_unwrap file_path) by assumption.
  reflexivity.
Qed.

Lemma issues_differ_by_unwrap_witness :
  analyze_code "f().unwrap() // TODO" "notes.txt"
  = filter (fun x => negb (is_unwrap x))
      (analyze_code "f().unwrap() // TODO" "main.rs").
Proof.
  apply (issues_differ_by_unwrap_only
           "f().unwrap() // TODO" "notes.txt" "main.rs").
  reflexivity.
Defined.

Lemma check_line_shift (file_path : string) (n k : nat) (l : string) :
  check_line file_path (n + k) l
  = map (shift_line n) (check_line file_path k l).
Proof.
  rewrite !check_line_eq.
  destruct (_ || _); destruct (Nat.ltb _ _); destruct (_ || _);
    destruct (_ && _); reflexivity.
Qed.

Lemma flat_map_check_shift (file_path : string) (n k : nat)
    (xs : list string) :
  flat_map (fun il => check_line file_path (fst il) (snd il))
    (enumerate xs (n + k))
  = map (shift_line n)
      (flat_map (fun il => check_line file_path (fst il) (snd il))
         (enumerate xs k)).
Proof.
  revert k. induction xs as [|l xs IH]; intros k;
    cbn [enumerate flat_map fst snd]; [reflexivity|].
  rewrite map_app, <- check_line_shift. f_equal.
  rewrite <- IH. do 2 f_equal. lia.
Qed.

(** X6: the analysis of two texts joined by a newline is the analysis of
    the first followed by the analysis of the second with its line
    numbers moved down by the number of lines of the first. *)
Theorem analyze_code_concat (a b file_path : string) :
  analyze_code (a ++ String "010" b) file_path
  = analyze_code a file_path
    ++ map (shift_line (List.length (PyStr.split "010" a)))
         (analyze_code b file_path).
Proof.
  rewrite !analyze_code_flat_map, split_app, enumerate_app, flat_map_app.
  f_equal. rewrite <- flat_map_check_shift. do 2 f_equal. lia.
Qed.

End IssueLines.

(** ** Further properties of the score *)

Section ScoreRange.

#[local] Open Scope float_scope.

(** The score with the tracing bonus, as a function of the number of
    issues. *)
Lemma score_floor_bonus (n : nat) :
  (0.5 <=? PyFloat.max 0.0
             (PyFloat.min 1.0
                (1.0 - PyFloat.min (PyFloat.of_len n * 0.1) 0.5 + 0.1)))
  = true.
Proof.
  unfold PyFloat.of_len. set (u := Uint63.of_Z (Z.of_nat n)).
  destruct (Z_lt_le_dec (Uint63.to_Z u) 8) as [Hsmall|Hbig].
  - pose proof (Uint63.to_Z_bounded u) as [Hnonneg _].
    rewrite <- (Uint63.of_to_Z u).
    assert (Hcases : (Uint63.to_Z u = 0 \/ Uint63.to_Z u = 1
                      \/ Uint63.to_Z u = 2 \/ Uint63.to_Z u = 3
                      \/ Uint63.to_Z u = 4 \/ Uint63.to_Z u = 5
                      \/ Uint63.to_Z u = 6 \/ Uint63.to_Z u = 7)%Z) by lia.
    repeat destruct Hcases as [Hcases|Hcases]; rewrite Hcases;
      vm_compute; reflexivity.
  - unfold PyFloat.min at 2. rewrite (tenth_above_half u Hbig).
    vm_compute. reflexivity.
Qed.

(** X7: [calculate_score] never returns less than 0.5, whatever the
    content and the issues: the penalty is capped at 0.5 and the bonus
    only adds, so the lower clamp at 0.0 never applies. *)
Theorem score_at_least_half (content : string) (issues : list Issue) :
  (0.5 <=? calculate_score content issues) = true.
Proof.
  rewrite calculate_score_eq. cbv zeta.
  destruct (PyStr.contains "use tracing::" content).
  - apply score_floor_bonus.
  - apply score_floor.
Qed.

(** X8: from five issues on the score no longer depends on the number of
    issues: it is exactly 0.5, or exactly [0.5 + 0.1] when the content has
    the tracing marker. The number of issues is below [2^63], as every
    length is in CPython. *)
Theorem score_saturates_at_five_issues
    (content : string) (issues : list Issue)
    (Hfive : 5 <= List.length issues)
    (Hlen : (Z.of_nat (List.length issues) < 2 ^ 63)%Z) :
  calculate_score content issues
  = if PyStr.contains "use tracing::" content then 0.5 + 0.1 else 0.5.
Proof.
  rewrite calculate_score_eq. cbv zeta.
  unfold PyFloat.of_len. set (u := Uint63.of_Z (Z.of_nat (List.length issues))).
  assert (Hu : Uint63.to_Z u = Z.of_nat (List.length issues)).
  { unfold u. rewrite Uint63.of_Z_spec. apply Z.mod_small.
    change wB with (2 ^ 63)%Z. lia. }
  destruct (Z_lt_le_dec (Uint63.to_Z u) 8) as [Hsmall|Hbig].
  - rewrite <- (Uint63.of_to_Z u).
    assert (Hcases : (Uint63.to_Z u = 5 \/ Uint63.to_Z u = 6
                      \/ Uint63.to_Z u = 7)%Z) by lia.
    destruct (PyStr.contains "use tracing::" content);
      repeat destruct Hcases as [Hcases|Hcases]; rewrite Hcases;
      vm_compute; reflexivity.
  - destruct (PyStr.contains "use tracing::" content);
      unfold PyFloat.min at 2; rewrite (tenth_above_half u Hbig);
      vm_compute; reflexivity.
Qed.

Lemma score_saturates_witness :
  calculate_score "use tracing::info;"
    [todo_issue 1 ""; todo_issue 2 ""; todo_issue 3 ""; todo_issue 4 "";
     todo_issue 5 ""; todo_issue 6 ""; todo_issue 7 ""]
  = if PyStr.contains "use tracing::" "use tracing::info;"
    then 0.5 + 0.1 else 0.5.
Proof.
  apply (score_saturates_at_five_issues "use tracing::info;"
           [todo_issue 1 ""; todo_issue 2 ""; todo_issue 3 ""; todo_issue 4 "";
            todo_issue 5 ""; todo_issue 6 ""; todo_issue 7 ""]);
    cbn [List.length]; lia.
Defined.

(** X9: a content without issues scores exactly 1.0 with or without the
    tracing marker, and so does a content with the marker and one issue:
    the bonus is cut by the upper clamp on a clean file and pays for
    exactly one issue. *)
Theorem clean_file_scores_one (content : string) (x : Issue) :
  calculate_score content [] = 1.0
  /\ (if PyStr.contains "use tracing::" content
      then calculate_score content [x] = 1.0
      else calculate_score content [x] = 1.0 - 0.1).
Proof.
  rewrite !calculate_score_eq. cbv zeta. cbn [List.length].
  destruct (PyStr.contains "use tracing::" content);
    split; vm_compute; reflexivity.
Qed.

End ScoreRange.

(** ** Further properties of the suggestion rules *)

Section SuggestionRules.

Lemma rs_excludes_py (path : string) :
  PyStr.endswith path ".rs" = true -> PyStr.endswith path ".py" = false.
Proof.
  intros Hrs. destruct (PyStr.endswith path ".py") eqn:Hpy; [|reflexivity].
  destruct (endswith_inv _ _ Hrs) as [q Hq].
  destruct (endswith_inv _ _ Hpy) as [q' Hq'].
  rewrite Hq in Hq'.
  pose proof (app_tail_unique _ _ _ _ Hq' eq_refl). discriminate.
Qed.

(** X10: the suggestions are chosen by the language of the path. Under a
    path ending in [.rs] only the logging and error-handling suggestions
    can appear, under a path ending in [.py] only the type-hint one, and
    under any other path none; so the three never appear together and a
    file gets at most two suggestions. *)
Theorem suggestions_by_language (content path : string) :
  generate_suggestions content path
  = (if PyStr.endswith path ".rs"
     then (if PyStr.contains "println!" content
           then [logging_suggestion] else [])
          ++ (if PyStr.contains ".unwrap()" content
              then [errors_suggestion] else [])
     else if PyStr.endswith path ".py"
          then (if PyStr.contains "def " content
                then [hints_suggestion] else [])
          else [])
  /\ List.length (generate_suggestions content path) <= 2.
Proof.
  unfold generate_suggestions, append_if.
  destruct (PyStr.endswith path ".rs") eqn:Hrs.
  - rewrite (rs_excludes_py _ Hrs), !andb_true_r. cbn [andb].
    destruct (PyStr.contains "println!" content);
      destruct (PyStr.contains ".unwrap()" content); cbn; split;
      (reflexivity || lia).
  - rewrite !andb_false_r.
    destruct (PyStr.endswith path ".py"); cbn [andb];
      try destruct (PyStr.contains "def " content); cbn; split;
      (reflexivity || lia).
Qed.

(** X11: the rule battery and the suggestion rules agree on unwrap: the
    issues of a file include an unsafe-unwrap issue if and only if its
    suggestions include the error-handling one. *)
Theorem unwrap_issue_iff_errors_suggestion (content path : string) :
  existsb is_unwrap (analyze_code content path) = true
  <-> In errors_suggestion (generate_suggestions content path).
Proof.
  assert (Hsugg : In errors_suggestion (generate_suggestions content path)
                  <-> PyStr.contains ".unwrap()" content = true
                      /\ PyStr.endswith path ".rs" = true).
  { unfold generate_suggestions, append_if,
      logging_suggestion, errors_suggestion, hints_suggestion.
    destruct (PyStr.contains "println!" content);
      destruct (PyStr.contains ".unwrap()" content);
      destruct (PyStr.endswith path ".rs");
      destruct (PyStr.endswith path ".py" && _);
      cbn [andb app In]; intuition discriminate. }
  rewrite Hsugg, existsb_exists. split.
  - intros [x [Hin Hx]]. apply in_analyze_code in Hin.
    destruct Hin as [i [l [Hnth Hin]]]. apply in_check_line in Hin.
    destruct Hin as [->|[->|[->|[_ [Hl Hp]]]]]; try discriminate Hx.
    split; [|exact Hp]. apply nth_error_In in Hnth.
    destruct (split_in_substring _ _ _ Hnth) as [a [b E]].
    exact (contains_trans _ _ _ _ _ E Hl).
  - intros [Hc Hp].
    destruct (contains_some_line "010" ".unwrap()" content eq_refl Hc)
      as [l [Hin Hl]].
    apply In_nth_error in Hin. destruct Hin as [i Hi].
    exists (unwrap_issue (S i) l). split; [|reflexivity].
    apply in_analyze_code. exists i, l. split; [exact Hi|].
    now apply unwrap_in_check_line.
Qed.

End SuggestionRules.

(** ** Further properties of the per-file driver and of the traversal *)

Section Driver.

Variable read_text : string -> Exception + string.
Variable utcnow : Z.

Lemma analyze_code_not_critical (content path : string) :
  existsb is_critical (analyze_code content path) = false.
Proof.
  destruct (existsb is_critical (analyze_code content path)) eqn:E;
    [|reflexivity].
  apply existsb_exists in E. destruct E as [x [Hin Hx]].
  apply in_analyze_code in Hin. destruct Hin as [i [l [_ Hin]]].
  apply in_check_line in Hin.
  destruct Hin as [->|[->|[->|[-> _]]]]; discriminate Hx.
Qed.

(** X12: a review tells a failed read from a read file. Its score is 0.0
    exactly when the read raised, it has a Critical issue exactly when the
    read raised, and a file that was read scores at least 0.5. *)
Theorem review_tells_read_failure (path : string) :
  (score (snd (review_file read_text utcnow path)) = 0.0%float
   <-> exists e, read_text path = inl e)
  /\ (existsb is_critical (issues (snd (review_file read_text utcnow path)))
      = true
      <-> exists e, read_text path = inl e)
  /\ (forall content,
         read_text path = inr content ->
         (0.5 <=? score (snd (review_file read_text utcnow path)))%float
         = true).
Proof.
  unfold review_file. destruct (read_text path) as [e|content] eqn:E;
    cbn [snd score issues].
  - repeat split; try (intros _; exists e; reflexivity); try discriminate.
  - repeat split.
    + intros H. pose proof (score_at_least_half content
                              (analyze_code content path)) as Hs.
      rewrite H in Hs. vm_compute in Hs. discriminate.
    + intros [e' He']. discriminate.
    + rewrite analyze_code_not_critical. discriminate.
    + intros [e' He']. discriminate.
    + intros content' Hc. injection Hc as <-. apply score_at_least_half.
Qed.

Variable root_exists : bool.
Variable rglob : list (string * bool).

(** X13: [review_codebase] returns one review per traversal entry that is
    a file with a recognized extension, in traversal order and under the
    entry's path, whatever the reads do: a file that cannot be read is
    still reviewed, and a root that does not exist gives no review. *)
Theorem review_codebase_one_per_code_file :
  map file_path (review_codebase read_text utcnow root_exists rglob)
  = (if root_exists
     then map fst (filter (fun entry => snd entry && is_code_file (fst entry))
                     rglob)
     else [])
  /\ List.length (review_codebase read_text utcnow root_exists rglob)
     = if root_exists
       then List.length
              (filter (fun entry => snd entry && is_code_file (fst entry))
                 rglob)
       else 0.
Proof.
  rewrite review_codebase_map. destruct root_exists; [|split; reflexivity].
  rewrite map_map, List.length_map. split; [|reflexivity].
  apply map_ext. intros [p f]. cbn [fst]. unfold review_file.
  destruct (read_text p); reflexivity.
Qed.

End Driver.

(** ** Which paths are code files *)

Section CodeFiles.

Lemma drop_length (i : nat) (s : string) :
  String.length (PyStr.drop i s) = String.length s - i.
Proof.
  revert s. induction i as [|i IH]; intros s; cbn [PyStr.drop].
  - lia.
  - destruct s as [|c t]; cbn [String.length]; [reflexivity|]. apply IH.
Qed.

Lemma rfind_absent (c : ascii) (s : string) :
  PyStr.has_char c s = false -> PyStr.rfind c s = (-1)%Z.
Proof.
  induction s as [|a t IH]; cbn [PyStr.has_char PyStr.rfind]; [reflexivity|].
  intros H. apply orb_false_iff in H. destruct H as [Ha Ht].
  rewrite (IH Ht), Ha. reflexivity.
Qed.

(** X14: a path that [is_code_file] accepts is a non-empty stem followed
    by an extension which, lowercased, is one of the nine recognized
    extensions. *)
Theorem code_file_has_known_extension
    (path : string) (Hcode : is_code_file path = true) :
  exists stem ext,
    path = (stem ++ ext)%string
    /\ stem <> EmptyString
    /\ ext = PyPath.suffix path
    /\ In (PyStr.lower ext) code_extensions.
Proof.
  unfold is_code_file, PyStr.mem in Hcode. apply existsb_exists in Hcode.
  destruct Hcode as [known [Hin Heq]]. apply String.eqb_eq in Heq.
  assert (Hne : PyPath.suffix path <> EmptyString).
  { intros E. rewrite E in Heq. cbn in Heq. subst known.
    cbn in Hin. intuition discriminate. }
  unfold PyPath.suffix in *.
  destruct (name_tail path) as [q Hq].
  set (n := PyPath.name path) in *. set (i := PyStr.rfind "." n) in *.
  destruct ((0 <? i)%Z && (i <? Z.of_nat (String.length n) - 1)%Z) eqn:G;
    [|congruence].
  apply andb_true_iff in G. destruct G as [G1 G2].
  apply Z.ltb_lt in G1, G2.
  destruct (drop_tail (Z.to_nat i) n) as [q' Hq'].
  exists (q ++ q')%string, (PyStr.drop (Z.to_nat i) n). repeat split.
  - rewrite app_assoc, <- Hq'. exact Hq.
  - intros E. apply (f_equal String.length) in Hq'.
    rewrite app_length, drop_length in Hq'.
    assert (String.length q' = 0).
    { apply (f_equal String.length) in E. rewrite app_length in E.
      cbn in E. lia. }
    lia.
  - rewrite Heq. exact Hin.
Qed.

Lemma code_file_extension_witness :
  exists stem ext,
    "src/Main.JAVA" = (stem ++ ext)%string
    /\ stem <> EmptyString
    /\ ext = PyPath.suffix "src/Main.JAVA"
    /\ In (PyStr.lower ext) code_extensions.
Proof.
  apply (code_file_has_known_extension "src/Main.JAVA"). reflexivity.
Defined.

(** X15: a path whose final component has no dot after its first
    character is never a code file: a name without extension, and a
    dotfile such as [.rs] although it ends in [.rs]. *)
Theorem no_inner_dot_not_code_file
    (path : string)
    (Hdot : PyStr.has_char "." (PyStr.drop 1 (PyPath.name path)) = false) :
  PyPath.suffix path = EmptyString /\ is_code_file path = false.
Proof.
  assert (E : PyPath.suffix path = EmptyString).
  { unfold PyPath.suffix.
    destruct (PyPath.name path) as [|c t]; [reflexivity|].
    cbn [PyStr.drop] in Hdot. cbn [PyStr.rfind].
    rewrite (rfind_absent _ _ Hdot). cbn [Z.leb Z.compare].
    destruct (Ascii.eqb c "."); reflexivity. }
  split; [exact E|]. unfold is_code_file. rewrite E. reflexivity.
Qed.

Lemma no_inner_dot_witness :
  PyPath.suffix "src/.rs" = EmptyString /\ is_code_file "src/.rs" = false.
Proof.
  apply (no_inner_dot_not_code_file "src/.rs"). reflexivity.
Defined.

End CodeFiles.

(** ** The patch step *)

Section PatchFiles.

Lemma has_char_app (c : ascii) (a b : string) :
  PyStr.has_char c (a ++ b) = PyStr.has_char c a || PyStr.has_char c b.
Proof.
  induction a as [|x a IH]; cbn [String.append PyStr.has_char];
    [reflexivity|]. now rewrite IH, orb_assoc.
Qed.

Lemma replace_removes (old new : ascii) (s : string) :
  Ascii.eqb new old = false ->
  PyStr.has_char old (PyStr.replace old new s) = false.
Proof.
  intros H. induction s as [|c s IH]; cbn [PyStr.replace PyStr.has_char];
    [reflexivity|].
  rewrite IH, orb_false_r. destruct (Ascii.eqb c old) eqn:E; assumption.
Qed.

Lemma replace_keeps_absent (c old new : ascii) (s : string) :
  Ascii.eqb new c = false ->
  PyStr.has_char c s = false ->
  PyStr.has_char c (PyStr.replace old new s) = false.
Proof.
  intros H. induction s as [|a s IH]; cbn [PyStr.replace PyStr.has_char];
    [reflexivity|].
  intros Hs. apply orb_false_iff in Hs. destruct Hs as [Ha Hs].
  rewrite (IH Hs), orb_false_r. destruct (Ascii.eqb a old); assumption.
Qed.

(** The name of a patch has no path separator unless the title has one,
    and it ends in [.patch]. *)
Lemma patch_name_flat (path title : string) :
  PyStr.has_char "/" title = false ->
  PyStr.has_char "092" title = false ->
  PyStr.has_char "/" (patch_name path title) = false
  /\ PyStr.has_char "092" (patch_name path title) = false
  /\ PyStr.endswith (patch_name path title) ".patch" = true.
Proof.
  intros Hs Hb. unfold patch_name. cbv zeta. repeat split.
  - rewrite !has_char_app.
    rewrite (replace_keeps_absent "/" "092" "_"
               (PyStr.replace "/" "_" path) eq_refl
               (replace_removes "/" "_" path eq_refl)).
    rewrite (replace_keeps_absent "/" " " "_" title eq_refl Hs).
    reflexivity.
  - rewrite !has_char_app.
    rewrite (replace_removes "092" "_" (PyStr.replace "/" "_" path) eq_refl).
    rewrite (replace_keeps_absent "092" " " "_" title eq_refl Hb).
    reflexivity.
  - rewrite <- !app_assoc. apply endswith_app.
Qed.

Lemma generate_suggestions_known (content path : string) (s : Suggestion) :
  In s (generate_suggestions content path) ->
  s = logging_suggestion \/ s = errors_suggestion \/ s = hints_suggestion.
Proof.
  unfold generate_suggestions, append_if.
  destruct (PyStr.contains "println!" content && _);
    destruct (PyStr.contains ".unwrap()" content && _);
    destruct (PyStr.endswith path ".py" && _); cbn [app In]; intuition auto.
Qed.

Variable write_text : string -> string -> option Exception.

Lemma patch_suggestions_prefix (path : string) (ss : list Suggestion) :
  exists rest,
    map (fun s => patch_name path (title s))
      (filter (fun s => PyStr.truthy (snippet s)) ss)
    = written_names (fst (patch_suggestions write_text path ss)) ++ rest
    /\ (snd (patch_suggestions write_text path ss) = None -> rest = [])
    /\ (forall e, snd (patch_suggestions write_text path ss) = Some e ->
                  rest <> []
                  /\ exists name content, write_text name content = Some e).
Proof.
  induction ss as [|s ss IH]; cbn [patch_suggestions filter map].
  - exists []. repeat split; auto; discriminate.
  - destruct (PyStr.truthy (snippet s)); [|exact IH].
    destruct (write_text _ _) as [e|] eqn:W.
    + eexists. cbn [fst snd written_names flat_map app map].
      split; [reflexivity|]. split; [discriminate|].
      intros e' He'. injection He' as <-. split; [discriminate|eauto].
    + destruct (patch_suggestions write_text path ss) as [events raised].
      destruct IH as [rest [E [Hnone Hsome]]]. exists rest.
      cbn [fst snd written_names flat_map app map] in *.
      rewrite E. auto.
Qed.

Lemma written_names_app (a b : list Event) :
  written_names (a ++ b) = written_names a ++ written_names b.
Proof. apply flat_map_app. Qed.

Lemma patch_reviews_prefix (reviews : list CodeReview) :
  exists rest,
    flat_map planned_names reviews
    = written_names (fst (patch_reviews write_text reviews)) ++ rest
    /\ (snd (patch_reviews write_text reviews) = None -> rest = [])
    /\ (forall e, snd (patch_reviews write_text reviews) = Some e ->
                  rest <> []
                  /\ exists name content, write_text name content = Some e).
Proof.
  induction reviews as [|r rs IH]; cbn [patch_reviews flat_map].
  - exists []. repeat split; auto; discriminate.
  - destruct (patch_suggestions_prefix (file_path r) (suggestions r))
      as [rest1 [E1 [Hnone1 Hsome1]]].
    fold (planned_names r) in E1.
    destruct (patch_suggestions write_text (file_path r) (suggestions r))
      as [events [e|]]; cbn [fst snd] in *.
    + exists (rest1 ++ flat_map planned_names rs). rewrite E1, List.app_assoc.
      split; [reflexivity|]. split; [discriminate|].
      intros e' He'. destruct (Hsome1 _ He') as [Hne Hw]. split; [|exact Hw].
      destruct rest1; [congruence|discriminate].
    + rewrite (Hnone1 eq_refl), List.app_nil_r in E1.
      destruct (patch_reviews write_text rs) as [events' raised].
      destruct IH as [rest [E [Hnone Hsome]]]. exists rest.
      cbn [fst snd] in *. rewrite written_names_app, E1, E, List.app_assoc.
      auto.
Qed.

Lemma generate_patches_prefix (reviews : list CodeReview) :
  exists rest,
    flat_map planned_names reviews
    = written_names (fst (generate_patches write_text reviews)) ++ rest
    /\ (snd (generate_patches write_text reviews) = None -> rest = [])
    /\ (forall e, snd (generate_patches write_text reviews) = Some e ->
                  rest <> []
                  /\ exists name content, write_text name content = Some e).
Proof.
  unfold generate_patches.
  destruct (patch_reviews_prefix reviews) as [rest H].
  destruct (patch_reviews write_text reviews) as [events raised].
  exists rest. exact H.
Qed.


Lemma written_names_planned (reviews : list CodeReview) (name : string) :
  In name (written_names (fst (generate_patches write_text reviews))) ->
  In name (flat_map planned_names reviews).
Proof.
  destruct (generate_patches_prefix reviews) as [rest [E _]].
  intros H. rewrite E. apply in_or_app. left. exact H.
Qed.

Variable read_text : string -> Exception + string.
Variable utcnow : Z.
Variable root_exists : bool.
Variable rglob : list (string * bool).

Lemma review_codebase_suggestions_known (r : CodeReview) (s : Suggestion) :
  In r (review_codebase read_text utcnow root_exists rglob) ->
  In s (suggestions r) ->
  s = logging_suggestion \/ s = errors_suggestion \/ s = hints_suggestion.
Proof.
  intros Hr Hs.
  rewrite review_codebase_map in Hr. destruct root_exists; [|destruct Hr].
  apply in_map_iff in Hr. destruct Hr as [[p f] [<- _]].
  cbn [fst] in Hs. unfold review_file in Hs.
  destruct (read_text p) as [e|content]; cbn [snd suggestions] in Hs.
  - destruct Hs.
  - exact (generate_suggestions_known _ _ _ Hs).
Qed.

Lemma flat_map_ext_in {A B : Type} (f g : A -> list B) (l : list A) :
  (forall x, In x l -> f x = g x) -> flat_map f l = flat_map g l.
Proof.
  induction l as [|x l IH]; intros H; cbn [flat_map]; [reflexivity|].
  rewrite (H x (or_introl eq_refl)), IH; [reflexivity|].
  intros y Hy. apply H. right. exact Hy.
Qed.

(** X17: the patches of a reviewed tree all land in the working
    directory: every file that [generate_patches] writes for the reviews
    of [review_codebase] has a name without slash or backslash that ends
    in [.patch], whatever the paths of the reviewed files. *)
Theorem patches_of_tree_are_flat_names :
  Forall (fun name =>
            PyStr.has_char "/" name = false
            /\ PyStr.has_char "092" name = false
            /\ PyStr.endswith name ".patch" = true)
    (written_names
       (fst (generate_patches write_text
               (review_codebase read_text utcnow root_exists rglob)))).
Proof.
  apply Forall_forall. intros name Hname.
  apply written_names_planned, in_flat_map in Hname.
  destruct Hname as [r [Hr Hname]]. unfold planned_names in Hname.
  apply in_map_iff in Hname. destruct Hname as [s [<- Hs]].
  apply filter_In in Hs. destruct Hs as [Hs _].
  destruct (review_codebase_suggestions_known _ _ Hr Hs) as [-> | [-> | ->]];
    apply patch_name_flat; reflexivity.
Qed.

(** X18: when no write raises, [generate_patches] on the reviews of
    [review_codebase] writes exactly one patch per suggestion, in order,
    and returns. *)
Theorem one_patch_per_suggestion
    (Hwrites : forall name content, write_text name content = None) :
  let reviews := review_codebase read_text utcnow root_exists rglob in
  written_names (fst (generate_patches write_text reviews))
  = flat_map (fun r => map (fun s => patch_name (file_path r) (title s))
                         (suggestions r)) reviews
  /\ snd (generate_patches write_text reviews) = None.
Proof.
  intros reviews.
  destruct (generate_patches_prefix reviews) as [rest [E [Hnone Hsome]]].
  assert (Hok : snd (generate_patches write_text reviews) = None).
  { destruct (snd (generate_patches write_text reviews)) as [e|] eqn:R;
      [|reflexivity].
    destruct (Hsome e eq_refl) as [_ [name [content W]]].
    rewrite Hwrites in W. discriminate. }
  split; [|exact Hok].
  rewrite (Hnone Hok), List.app_nil_r in E. rewrite <- E.
  apply flat_map_ext_in. intros r Hr. unfold planned_names. f_equal.
  apply forallb_filter_id, forallb_forall. intros s Hs.
  destruct (review_codebase_suggestions_known _ _ Hr Hs) as [-> | [-> | ->]];
    reflexivity.
Qed.

End PatchFiles.

Lemma one_patch_per_suggestion_witness :
  let reviews :=
    review_codebase (fun _ => inr "println!(x.unwrap());") 0%Z true
      [("src/main.rs", true); ("src", false)] in
  written_names (fst (generate_patches (fun _ _ => None) reviews))
  = flat_map (fun r => map (fun s => patch_name (file_path r) (title s))
                         (suggestions r)) reviews
  /\ snd (generate_patches (fun _ _ => None) reviews) = None.
Proof.
  apply (one_patch_per_suggestion (fun _ _ => None)
           (fun _ => inr "println!(x.unwrap());") 0%Z true
           [("src/main.rs", true); ("src", false)]).
  reflexivity.
Defined.

Section PatchNames.

Lemma replace_idempotent (old new : ascii) (s : string) :
  Ascii.eqb new old = false ->
  PyStr.replace old new (PyStr.replace old new s) = PyStr.replace old new s.
Proof.
  intros Hne. induction s as [|c s IH]; cbn [PyStr.replace]; [reflexivity|].
  rewrite IH. destruct (Ascii.eqb c old) eqn:E; rewrite ?Hne, ?E; reflexivity.
Qed.

Lemma replace_changes (old new : ascii) (s : string) :
  Ascii.eqb new old = false ->
  PyStr.has_char old s = true -> PyStr.replace old new s <> s.
Proof.
  intros Hne Hs E. apply (f_equal (PyStr.has_char old)) in E.
  rewrite (replace_removes _ _ _ Hne), Hs in E. discriminate.
Qed.

(** X19: patch names do not tell a slash from an underscore: a path with
    a slash and the same path with its slashes replaced by underscores are
    different paths with the same patch name for every title, so the
    patches of two such files overwrite each other. *)
Theorem patch_names_collide
    (path title : string) (Hslash : PyStr.has_char "/" path = true) :
  PyStr.replace "/" "_" path <> path
  /\ patch_name (PyStr.replace "/" "_" path) title = patch_name path title.
Proof.
  split; [now apply replace_changes|].
  unfold patch_name. cbv zeta.
  rewrite (replace_idempotent "/" "_" path eq_refl). reflexivity.
Qed.

Lemma patch_names_collide_witness :
  PyStr.replace "/" "_" "src/main.rs" <> "src/main.rs"
  /\ patch_name (PyStr.replace "/" "_" "src/main.rs") "Add type hints"
     = patch_name "src/main.rs" "Add type hints".
Proof.
  apply (patch_names_collide "src/main.rs" "Add type hints"). reflexivity.
Defined.

End PatchNames.

(** ** The commit step *)

Section CommitStep.

Variable run : list string -> Exception + Z.

(** X20: [commit_changes] always runs [git add .] and runs [git commit]
    only when the add returned 0; it prints two lines on every path, the
    second being the success message exactly when both commands returned
    0. *)
Theorem commit_only_after_successful_add :
  commands_run (commit_changes run)
  = git_add :: match run git_add with
               | inr 0%Z => [git_commit]
               | _ => []
               end
  /\ List.length (printed_lines (commit_changes run)) = 2
  /\ (nth_error (printed_lines (commit_changes run)) 1
      = Some "Changes committed successfully"
      <-> run git_add = inr 0%Z /\ run git_commit = inr 0%Z).
Proof.
  unfold commit_changes.
  destruct (run git_add) as [e|[|rc|rc]];
    cbn [negb Z.eqb commands_run printed_lines flat_map app List.length
         nth_error];
    try (repeat split; try reflexivity; try discriminate;
         intros [H _]; discriminate).
  destruct (run git_commit) as [e|[|rc|rc]];
    cbn [negb Z.eqb commands_run printed_lines flat_map app List.length
         nth_error];
    repeat split; try reflexivity; try discriminate;
    try (intros [_ H]; discriminate).
Qed.

End CommitStep.

(** ** The summary counts *)

Section Summary.

Variable read_text : string -> Exception + string.
Variable utcnow : Z.
Variable root_exists : bool.
Variable rglob : list (string * bool).

Lemma fold_left_add_bound {A : Type} (f : A -> nat) (k : nat) (l : list A)
    (acc : nat) :
  (forall x, In x l -> f x <= k) ->
  fold_left (fun total x => total + f x) l acc <= acc + k * List.length l.
Proof.
  revert acc. induction l as [|x l IH]; intros acc H; cbn [fold_left List.length].
  - lia.
  - specialize (IH (acc + f x) (fun y Hy => H y (or_intror Hy))).
    pose proof (H x (or_introl eq_refl)). lia.
Qed.

(** X21: in the summary of a reviewed tree the total of suggestions is at
    most twice the number of files reviewed, since no file gets the Rust
    and the Python suggestions together. *)
Theorem summary_suggestions_at_most_two_per_file :
  total_suggestions (review_codebase read_text utcnow root_exists rglob)
  <= 2 * List.length (review_codebase read_text utcnow root_exists rglob).
Proof.
  unfold total_suggestions.
  apply (fold_left_add_bound (fun r => List.length (suggestions r)) 2 _ 0).
  intros r Hr. rewrite review_codebase_map in Hr.
  destruct root_exists; [|destruct Hr].
  apply in_map_iff in Hr. destruct Hr as [[p f] [<- _]].
  cbn [fst]. unfold review_file.
  destruct (read_text p) as [e|content]; cbn [snd suggestions List.length];
    [lia|].
  unfold generate_suggestions, append_if.
  destruct (PyStr.endswith p ".rs") eqn:Hrs.
  - rewrite (rs_excludes_py _ Hrs). cbn [andb].
    destruct (_ && _); destruct (_ && _); cbn; lia.
  - rewrite !andb_false_r. destruct (_ && _); cbn; lia.
Qed.

End Summary.
